(** * otus_ml_basic: the vehicle exercise (hw-6) and the media-file
      exercise (hw-5), embedded and verified.

    Python integers are unbounded, so numeric attributes are [Z].  Strings
    are [string] (the UTF-8 bytes of the Python text; every separator and
    suffix the code searches for is ASCII, so byte-wise and code-point-wise
    matching agree).  A method that mutates [self] and may raise is a
    computation in the state-and-exception monad [Py]: it maps the object
    before the call to the object after the call together with either the
    returned value or the raised exception.  Console output ([print]) is
    not observed by any property below and is left out of the model. *)

From Stdlib Require Import Ascii.
From stdpp Require Import base tactics option list strings pretty gmap.

Local Open Scope Z_scope.
Local Open Scope string_scope.

(** ** Exceptions *)

(** An exception instance.  The three classes of [hw-6/exceptions.py]
    carry the [message] attribute their [__init__] stores; the built-in
    ones are raised by the interpreter or by [raise ValueError(...)]. *)
Inductive exn : Type :=
  | LowFuelError_obj (message : string)
  | NotEnoughFuel_obj (message : string)
  | CargoOverload_obj (message : string)
  | ValueError (message : string)
  | TypeError
  | AttributeError.

(** [hw-6/exceptions.py]: each [__init__] prefixes the message. *)
Definition LowFuelError (message : string) : exn :=
  LowFuelError_obj ("Low Fuel: " +:+ message).

Definition NotEnoughFuel (message : string) : exn :=
  NotEnoughFuel_obj ("Not Enough Fuel: " +:+ message).

Definition CargoOverload (message : string) : exn :=
  CargoOverload_obj ("Cargo Over load: " +:+ message).

Definition is_LowFuelError (e : exn) : bool :=
  match e with LowFuelError_obj _ => true | _ => false end.

Definition is_NotEnoughFuel (e : exn) : bool :=
  match e with NotEnoughFuel_obj _ => true | _ => false end.

Definition is_CargoOverload (e : exn) : bool :=
  match e with CargoOverload_obj _ => true | _ => false end.

Definition is_ValueError (e : exn) : bool :=
  match e with ValueError _ => true | _ => false end.

(** ** The monad of method calls *)

Inductive outcome (A : Type) : Type :=
  | Return (a : A)
  | Raise (e : exn).
Arguments Return {A} a.
Arguments Raise {A} e.

Definition Py (S A : Type) : Type := S → S * outcome A.

#[global] Instance Py_ret {S} : MRet (Py S) := λ A a self, (self, Return a).

#[global] Instance Py_bind {S} : MBind (Py S) := λ A B k m self,
  match m self with
  | (self', Return a) => k a self'
  | (self', Raise e) => (self', Raise e)
  end.

Definition raise {S A} (e : exn) : Py S A := λ self, (self, Raise e).

Definition get_self {S} : Py S S := λ self, (self, Return self).

Definition set_self {S} (self' : S) : Py S unit := λ _, (self', Return tt).

(** The object left behind by a call, and whether the call raised. *)
Definition after {S A} (r : S * outcome A) : S := r.1.

Definition raised {A} (o : outcome A) : bool :=
  match o with Raise _ => true | Return _ => false end.

Definition raised_with {A} (p : exn → bool) (o : outcome A) : bool :=
  match o with Raise e => p e | Return _ => false end.

(** ** hw-6/base.py: class Vehicle *)

Record Vehicle : Type := mkVehicle {
  weight : Z;
  started : bool;
  fuel : Z;
  fuel_consumption : Z
}.

Definition with_started (b : bool) (v : Vehicle) : Vehicle :=
  mkVehicle (weight v) b (fuel v) (fuel_consumption v).

Definition with_fuel (f : Z) (v : Vehicle) : Vehicle :=
  mkVehicle (weight v) (started v) f (fuel_consumption v).

(** [Vehicle.__init__]: [started] keeps the class attribute [False]. *)
Definition Vehicle_init (weight fuel fuel_consumption : Z) : Vehicle :=
  mkVehicle weight false fuel fuel_consumption.

Definition Vehicle_start : Py Vehicle unit :=
  self ← get_self;
  if negb (started self) then
    if bool_decide (fuel self > 0) then
      set_self (with_started true self)
    else
      raise (LowFuelError "Cannot start vehicle with no fuel")
  else mret tt.

Definition Vehicle_move (distance : Z) : Py Vehicle unit :=
  self ← get_self;
  let fuel_needed := distance * fuel_consumption self in
  if bool_decide (fuel self >= fuel_needed) then
    set_self (with_fuel (fuel self - fuel_needed) self)
  else
    raise (NotEnoughFuel
             ("Need " +:+ pretty fuel_needed +:+
              " fuel, but only have " +:+ pretty (fuel self))).

(** ** hw-6/plane.py: class Plane(Vehicle) *)

Record Plane : Type := mkPlane {
  vehicle : Vehicle;
  cargo : Z;
  max_cargo : Z
}.

Definition with_cargo (c : Z) (p : Plane) : Plane :=
  mkPlane (vehicle p) c (max_cargo p).

(** [Plane.__init__] never assigns [cargo]; reads fall back to the class
    attribute [cargo = 0]. *)
Definition Plane_init (weight fuel fuel_consumption max_cargo : Z) : Plane :=
  mkPlane (Vehicle_init weight fuel fuel_consumption) 0 max_cargo.

(** A method inherited from [Vehicle], run on a [Plane]. *)
Definition inherited {A} (m : Py Vehicle A) : Py Plane A := λ self,
  let '(v', o) := m (vehicle self) in
  (mkPlane v' (cargo self) (max_cargo self), o).

Definition Plane_load_cargo (amount : Z) : Py Plane unit :=
  self ← get_self;
  if bool_decide (cargo self + amount <= max_cargo self) then
    set_self (with_cargo (cargo self + amount) self)
  else
    raise (CargoOverload
             ("Cannot load " +:+ pretty amount +:+
              " cargo. Current: " +:+ pretty (cargo self) +:+
              ", Max: " +:+ pretty (max_cargo self))).

Definition Plane_remove_all_cargo : Py Plane Z :=
  self ← get_self;
  let previous_cargo := cargo self in
  _ ← set_self (with_cargo 0 self);
  mret previous_cargo.

(** Sequences of calls.  A caller that catches the exception of one call
    goes on with the object as that call left it. *)
Inductive vehicle_call : Type :=
  | call_start
  | call_move (distance : Z).

Definition vehicle_step (v : Vehicle) (c : vehicle_call) : Vehicle :=
  match c with
  | call_start => after (Vehicle_start v)
  | call_move d => after (Vehicle_move d v)
  end.

Definition vehicle_run (cs : list vehicle_call) (v : Vehicle) : Vehicle :=
  foldl vehicle_step v cs.

Definition call_distance_nonneg (c : vehicle_call) : bool :=
  match c with
  | call_start => true
  | call_move d => bool_decide (0 <= d)
  end.

Inductive plane_call : Type :=
  | call_load_cargo (amount : Z)
  | call_remove_all_cargo
  | call_inherited (c : vehicle_call).

Definition plane_step (p : Plane) (c : plane_call) : Plane :=
  match c with
  | call_load_cargo a => after (Plane_load_cargo a p)
  | call_remove_all_cargo => after (Plane_remove_all_cargo p)
  | call_inherited call_start => after (inherited Vehicle_start p)
  | call_inherited (call_move d) => after (inherited (Vehicle_move d) p)
  end.

Definition plane_run (cs : list plane_call) (p : Plane) : Plane :=
  foldl plane_step p cs.

(** ** Python values and strings (hw-5) *)

(** The values a metadata entry or a keyword argument can hold. *)
#[warnings="-register-all"] Inductive pyval : Type :=
  | VNone
  | VBool (b : bool)
  | VInt (z : Z)
  | VStr (s : string)
  | VDatetime (t : Z)
  | VDict (d : gmap string pyval).

(** Python truthiness, as used by [x or y]. *)
Definition truthy (v : pyval) : bool :=
  match v with
  | VNone => false
  | VBool b => b
  | VInt z => negb (Z.eqb z 0)
  | VStr s => negb (String.eqb s "")
  | VDatetime _ => true
  | VDict d => negb (Nat.eqb (base.size d) 0)
  end.

Definition py_or (x y : pyval) : pyval := if truthy x then x else y.

#[global] Instance outcome_ret : MRet outcome := λ A a, Return a.

#[global] Instance outcome_bind : MBind outcome := λ A B k o,
  match o with
  | Return a => k a
  | Raise e => Raise e
  end.

(** [s.split(sep)] for a one-character separator: never empty. *)
Fixpoint split (sep : Ascii.ascii) (s : string) : list string :=
  match s with
  | EmptyString => [""]
  | String c s' =>
      if Ascii.eqb c sep then "" :: split sep s'
      else match split sep s' with
           | w :: ws => String c w :: ws
           | [] => [String c ""]
           end
  end.

(** [s.split(sep)[0]] and [s.split(sep)[-1]]. *)
Definition split_first (sep : Ascii.ascii) (s : string) : string :=
  hd "" (split sep s).

Definition split_last (sep : Ascii.ascii) (s : string) : string :=
  List.last (split sep s) "".

(** [s.endswith(suffix)]: some tail of [s] is [suffix]. *)
Fixpoint endswith (s suffix : string) : bool :=
  if String.eqb s suffix then true
  else match s with
       | EmptyString => false
       | String _ s' => endswith s' suffix
       end.

(** [s.endswith((suffix1, suffix2, ...))]. *)
Definition endswith_any (s : string) (suffixes : list string) : bool :=
  existsb (endswith s) suffixes.

(** Binding of a call [f(positional..., **kw)]: a keyword naming a
    parameter already bound positionally is a [TypeError]; keywords naming
    the [optional] parameters are bound to them; what is left goes to
    [**kwargs] when the function has one and is a [TypeError] otherwise.
    Returns what is left. *)
Definition bind_keywords (positional optional : list string) (var_kw : bool)
    (kw : gmap string pyval) : outcome (gmap string pyval) :=
  if existsb (λ k, bool_decide (is_Some (kw !! k))) positional then
    Raise TypeError
  else
    let rest := foldr delete kw optional in
    if var_kw || bool_decide (dom rest = ∅) then Return rest
    else Raise TypeError.

(** A parameter with default [None]. *)
Definition keyword (kw : gmap string pyval) (k : string) : pyval :=
  default VNone (kw !! k).

(** [target.update(other)] where [target] is any value: only a dict has
    the method. *)
Definition dict_update (target : pyval) (other : gmap string pyval)
    : outcome (gmap string pyval) :=
  match target with
  | VDict d => Return (other ∪ d)
  | _ => Raise AttributeError
  end.

(** ** hw-5/main.py: the MediaFile hierarchy *)

Inductive media_class : Type := AudioFile | VideoFile | PhotoFile.

Record MediaFile : Type := mkMediaFile {
  class_of : media_class;
  name : string;
  size : Z;
  created_at : pyval;
  owner : pyval;
  metadata : gmap string pyval
}.

Definition with_metadata (d : gmap string pyval) (m : MediaFile) : MediaFile :=
  mkMediaFile (class_of m) (name m) (size m) (created_at m) (owner m) d.

(** The attributes [MediaFile.__init__] assigns; [metadata] may be any
    truthy value the caller passed.  [now] is what [datetime.now()]
    reads. *)
Record MediaFile_attrs : Type := mkAttrs {
  a_name : string;
  a_size : Z;
  a_created_at : pyval;
  a_owner : pyval;
  a_metadata : pyval
}.

Definition MediaFile_init (now : Z) (name : string) (size : Z)
    (kw : gmap string pyval) : outcome MediaFile_attrs :=
  _ ← bind_keywords ["self"; "name"; "size"]
                    ["created_at"; "owner"; "metadata"] false kw;
  mret (mkAttrs name size
          (py_or (keyword kw "created_at") (VDatetime now))
          (keyword kw "owner")
          (py_or (keyword kw "metadata") (VDict ∅))).

Definition AudioFile_init (now : Z) (name : string) (size : Z)
    (kw : gmap string pyval) : outcome MediaFile :=
  kwargs ← bind_keywords ["self"; "name"; "size"]
             ["duration"; "bitrate"; "sample_rate"; "channels"] true kw;
  self ← MediaFile_init now name size kwargs;
  md ← dict_update (a_metadata self)
         (<["duration" := keyword kw "duration"]>
          (<["bitrate" := keyword kw "bitrate"]>
           (<["sample_rate" := keyword kw "sample_rate"]>
            (<["channels" := keyword kw "channels"]> ∅))));
  mret (mkMediaFile AudioFile (a_name self) (a_size self)
          (a_created_at self) (a_owner self) md).

Definition VideoFile_init (now : Z) (name : string) (size : Z)
    (kw : gmap string pyval) : outcome MediaFile :=
  kwargs ← bind_keywords ["self"; "name"; "size"]
             ["duration"; "resolution"; "frame_rate"; "codec"] true kw;
  self ← MediaFile_init now name size kwargs;
  md ← dict_update (a_metadata self)
         (<["duration" := keyword kw "duration"]>
          (<["resolution" := keyword kw "resolution"]>
           (<["frame_rate" := keyword kw "frame_rate"]>
            (<["codec" := keyword kw "codec"]> ∅))));
  mret (mkMediaFile VideoFile (a_name self) (a_size self)
          (a_created_at self) (a_owner self) md).

Definition PhotoFile_init (now : Z) (name : string) (size : Z)
    (kw : gmap string pyval) : outcome MediaFile :=
  kwargs ← bind_keywords ["self"; "name"; "size"]
             ["width"; "height"; "color_space"; "camera_model"] true kw;
  self ← MediaFile_init now name size kwargs;
  md ← dict_update (a_metadata self)
         (<["width" := keyword kw "width"]>
          (<["height" := keyword kw "height"]>
           (<["color_space" := keyword kw "color_space"]>
            (<["camera_model" := keyword kw "camera_model"]> ∅))));
  mret (mkMediaFile PhotoFile (a_name self) (a_size self)
          (a_created_at self) (a_owner self) md).

Definition get_file_type (m : MediaFile) : string :=
  match class_of m with
  | AudioFile => "Audio"
  | VideoFile => "Video"
  | PhotoFile => "Photo"
  end.

Definition MediaFile_update_metadata (d : gmap string pyval)
    : Py MediaFile unit :=
  self ← get_self;
  set_self (with_metadata (d ∪ metadata self) self).

Definition lift_outcome {S A} (o : outcome A) : Py S A := λ self, (self, o).

Definition AudioFile_convert (now : Z) (target_format : string)
    : Py MediaFile MediaFile :=
  self ← get_self;
  let new_name := split_first "."%char (name self) +:+ "." +:+ target_format in
  lift_outcome (AudioFile_init now new_name (size self) (metadata self)).

Definition VideoFile_convert (now : Z) (target_format : string)
    : Py MediaFile MediaFile :=
  self ← get_self;
  let new_name := split_first "."%char (name self) +:+ "." +:+ target_format in
  lift_outcome (VideoFile_init now new_name (size self) (metadata self)).

Definition PhotoFile_convert (now : Z) (target_format : string)
    : Py MediaFile MediaFile :=
  self ← get_self;
  let new_name := split_first "."%char (name self) +:+ "." +:+ target_format in
  lift_outcome (PhotoFile_init now new_name (size self) (metadata self)).

(** [m.convert(target_format)]: dispatch on the class of [m]. *)
Definition convert (now : Z) (target_format : string)
    : Py MediaFile MediaFile := λ self,
  match class_of self with
  | AudioFile => AudioFile_convert now target_format self
  | VideoFile => VideoFile_convert now target_format self
  | PhotoFile => PhotoFile_convert now target_format self
  end.

(** ** hw-5/main.py: the Storage hierarchy and the factory *)

Inductive Storage : Type :=
  | LocalStorage
  | CloudStorage (provider : string) (credentials : gmap string string)
  | RemoteStorage (host : string) (port : Z) (username password : string)
  | S3Storage (bucket region access_key secret_key : string).

Definition unsupported (path : string) : exn :=
  ValueError ("Неподдерживаемый тип файла: " +:+ path).

Definition LocalStorage_load (now : Z) (path : string) : outcome MediaFile :=
  if endswith_any path [".mp3"; ".wav"; ".flac"] then
    AudioFile_init now (split_last "/"%char path) 1000000 ∅
  else if endswith_any path [".mp4"; ".avi"; ".mov"] then
    VideoFile_init now (split_last "/"%char path) 5000000 ∅
  else if endswith_any path [".jpg"; ".png"; ".gif"] then
    PhotoFile_init now (split_last "/"%char path) 500000 ∅
  else Raise (unsupported path).

Definition CloudStorage_load (now : Z) (path : string) : outcome MediaFile :=
  if endswith_any path [".mp3"; ".wav"; ".flac"] then
    AudioFile_init now (split_last "/"%char path) 1000000 ∅
  else if endswith_any path [".mp4"; ".avi"; ".mov"] then
    VideoFile_init now (split_last "/"%char path) 5000000 ∅
  else if endswith_any path [".jpg"; ".png"; ".gif"] then
    PhotoFile_init now (split_last "/"%char path) 500000 ∅
  else Raise (unsupported path).

Definition RemoteStorage_load (now : Z) (path : string) : outcome MediaFile :=
  if endswith_any path [".mp3"; ".wav"; ".flac"] then
    AudioFile_init now (split_last "/"%char path) 1000000 ∅
  else if endswith_any path [".mp4"; ".avi"; ".mov"] then
    VideoFile_init now (split_last "/"%char path) 5000000 ∅
  else if endswith_any path [".jpg"; ".png"; ".gif"] then
    PhotoFile_init now (split_last "/"%char path) 500000 ∅
  else Raise (unsupported path).

Definition S3Storage_load (now : Z) (path : string) : outcome MediaFile :=
  if endswith_any path [".mp3"; ".wav"; ".flac"] then
    AudioFile_init now (split_last "/"%char path) 1000000 ∅
  else if endswith_any path [".mp4"; ".avi"; ".mov"] then
    VideoFile_init now (split_last "/"%char path) 5000000 ∅
  else if endswith_any path [".jpg"; ".png"; ".gif"] then
    PhotoFile_init now (split_last "/"%char path) 500000 ∅
  else Raise (unsupported path).

(** [storage.load(path)]: dispatch on the class of the storage. *)
Definition load (st : Storage) (now : Z) (path : string) : outcome MediaFile :=
  match st with
  | LocalStorage => LocalStorage_load now path
  | CloudStorage _ _ => CloudStorage_load now path
  | RemoteStorage _ _ _ _ => RemoteStorage_load now path
  | S3Storage _ _ _ _ => S3Storage_load now path
  end.

(** [MediaFileFactory.create_from_path(path, size, **kwargs)]. *)
Definition create_from_path (now : Z) (path : string) (size : Z)
    (kw : gmap string pyval) : outcome MediaFile :=
  kwargs ← bind_keywords ["path"; "size"] [] true kw;
  let filename := split_last "/"%char path in
  if endswith_any path [".mp3"; ".wav"; ".flac"] then
    AudioFile_init now filename size kwargs
  else if endswith_any path [".mp4"; ".avi"; ".mov"] then
    VideoFile_init now filename size kwargs
  else if endswith_any path [".jpg"; ".png"; ".gif"] then
    PhotoFile_init now filename size kwargs
  else Raise (unsupported path).

(** The objects and calls of the example driver [main()]. *)
Definition main_audio (now : Z) : outcome MediaFile :=
  AudioFile_init now "song.mp3" 5000000
    (<["duration" := VInt 240]> (<["bitrate" := VInt 320]>
     (<["sample_rate" := VInt 44100]> (<["channels" := VInt 2]>
      (<["owner" := VStr "John"]> ∅))))).

Definition main_genre : gmap string pyval :=
  <["genre" := VStr "Rock"]> (<["artist" := VStr "Unknown"]> ∅).

(** ** Vocabulary of the properties *)

(** [s] ends in [suffix]. *)
Definition has_suffix (s suffix : string) : Prop :=
  ∃ stem : string, s = stem +:+ suffix.

Definition audio_path (path : string) : Prop :=
  has_suffix path ".mp3" ∨ has_suffix path ".wav" ∨ has_suffix path ".flac".

Definition video_path (path : string) : Prop :=
  has_suffix path ".mp4" ∨ has_suffix path ".avi" ∨ has_suffix path ".mov".

Definition photo_path (path : string) : Prop :=
  has_suffix path ".jpg" ∨ has_suffix path ".png" ∨ has_suffix path ".gif".

(** Groups of suffixes none of which ends in one of another group. *)
Definition unrelated (l1 l2 : list string) : bool :=
  forallb (λ a, forallb (λ b, negb (endswith a b) && negb (endswith b a)) l2) l1.

(** The keyword parameters of each subclass constructor and of
    [MediaFile.__init__]. *)
Definition own_keys (c : media_class) : list string :=
  match c with
  | AudioFile => ["duration"; "bitrate"; "sample_rate"; "channels"]
  | VideoFile => ["duration"; "resolution"; "frame_rate"; "codec"]
  | PhotoFile => ["width"; "height"; "color_space"; "camera_model"]
  end.

Definition base_keys : list string := ["created_at"; "owner"; "metadata"].

(** The dict a subclass constructor merges into [metadata]. *)
Definition own_fields (c : media_class) (kw : gmap string pyval)
    : gmap string pyval :=
  list_to_map ((λ k, (k, keyword kw k)) <$> own_keys c).

(** The three subclass constructors differ only in their class and keys. *)
Definition subclass_init (c : media_class) (now : Z) (name : string)
    (size : Z) (kw : gmap string pyval) : outcome MediaFile :=
  kwargs ← bind_keywords ["self"; "name"; "size"] (own_keys c) true kw;
  self ← MediaFile_init now name size kwargs;
  md ← dict_update (a_metadata self) (own_fields c kw);
  mret (mkMediaFile c (a_name self) (a_size self)
          (a_created_at self) (a_owner self) md).

(** Keyword arguments a constructor of class [c] accepts: every keyword
    names one of its parameters, and [metadata], when given, is a dict or
    a falsy value. *)
Definition dictish (v : pyval) : bool :=
  match v with
  | VDict _ => true
  | _ => negb (truthy v)
  end.

Definition accepts_fields (c : media_class) (kw : gmap string pyval) : bool :=
  forallb (λ kv, bool_decide (kv.1 ∈ (own_keys c ++ base_keys)%list)) (map_to_list kw)
  && dictish (keyword kw "metadata").

Definition as_dict (v : pyval) : gmap string pyval :=
  match v with
  | VDict d => d
  | _ => ∅
  end.

(** [o] is the return of an object of class [c], named after the last
    component of [path], of size [sz]. *)
Definition built (c : media_class) (path : string) (sz : Z)
    (o : outcome MediaFile) : Prop :=
  ∃ m, o = Return m ∧ class_of m = c
       ∧ name m = split_last "/"%char path ∧ size m = sz.

(** ** The rest of hw-5/main.py *)

(** [sep in s], for a one-character [sep]. *)
Fixpoint contains (sep : Ascii.ascii) (s : string) : bool :=
  match s with
  | EmptyString => false
  | String c s' => if Ascii.eqb c sep then true else contains sep s'
  end.

(** [PhotoFile.resize(width, height)], for integer dimensions. *)
Definition PhotoFile_resize (now : Z) (width height : Z)
    : Py MediaFile MediaFile :=
  self ← get_self;
  let new_name :=
    split_first "."%char (name self) +:+ "_resized." +:+
    split_last "."%char (name self) in
  lift_outcome
    (PhotoFile_init now new_name (size self)
       (<["width" := VInt width]> (<["height" := VInt height]> ∅))).

(** [VideoFile.extract_frame(timestamp)].  The method uses [timestamp]
    only inside an f-string; the argument here is the text the f-string
    puts for it (["120.5"] for [120.5]). *)
Definition VideoFile_extract_frame (now : Z) (timestamp : string)
    : Py MediaFile MediaFile :=
  self ← get_self;
  let frame_name :=
    split_first "."%char (name self) +:+ "_" +:+ timestamp +:+ ".jpg" in
  lift_outcome
    (PhotoFile_init now frame_name 100000
       (<["width" := VInt 1920]> (<["height" := VInt 1080]> ∅))).

(** [storage.list_files(directory)]: a fixed list per class of storage. *)
Definition list_files (st : Storage) (directory : string) : list string :=
  match st with
  | LocalStorage => ["example1.mp3"; "example2.mp4"; "example3.jpg"]
  | CloudStorage _ _ =>
      ["cloud_example1.mp3"; "cloud_example2.mp4"; "cloud_example3.jpg"]
  | RemoteStorage _ _ _ _ =>
      ["remote_example1.mp3"; "remote_example2.mp4"; "remote_example3.jpg"]
  | S3Storage _ _ _ _ =>
      ["s3_example1.mp3"; "s3_example2.mp4"; "s3_example3.jpg"]
  end.

(** [cls(name, size, **kw)] for the class [c]. *)
Definition construct (c : media_class) (now : Z) (name : string) (size : Z)
    (kw : gmap string pyval) : outcome MediaFile :=
  match c with
  | AudioFile => AudioFile_init now name size kw
  | VideoFile => VideoFile_init now name size kw
  | PhotoFile => PhotoFile_init now name size kw
  end.

Definition with_size (sz : Z) (m : MediaFile) : MediaFile :=
  mkMediaFile (class_of m) (name m) sz (created_at m) (owner m) (metadata m).

(** The class of the object a call returned, if it returned one. *)
Definition returned_class (o : outcome MediaFile) : option media_class :=
  match o with
  | Return m => Some (class_of m)
  | Raise _ => None
  end.

(** The metadata holds every key of the file's class. *)
Definition has_own_keys (m : MediaFile) : Prop :=
  ∀ k, k ∈ own_keys (class_of m) → is_Some (metadata m !! k).

(** The metadata holds the keys of the file's class and no other. *)
Definition plain (m : MediaFile) : Prop :=
  dom (metadata m) = list_to_set (own_keys (class_of m)).

(** Every keyword of [kw] names a parameter of the constructor of [c]. *)
Definition known_keywords (c : media_class) (kw : gmap string pyval) : bool :=
  forallb (λ kv, bool_decide (kv.1 ∈ (own_keys c ++ base_keys)%list))
          (map_to_list kw).

(** The [message] attribute of an exception of [hw-6/exceptions.py]. *)
Definition message_of (e : exn) : option string :=
  match e with
  | LowFuelError_obj msg | NotEnoughFuel_obj msg | CargoOverload_obj msg =>
      Some msg
  | _ => None
  end.

(** * Properties *)

(** ** Vehicle and Plane (hw-6) *)

Section vehicle.
Implicit Types (v : Vehicle) (p : Plane) (d a : Z).

Lemma Vehicle_move_enough v d :
  d * fuel_consumption v <= fuel v →
  Vehicle_move d v
  = (with_fuel (fuel v - d * fuel_consumption v) v, Return tt).
Proof.
  intros Hle. unfold Vehicle_move, mbind, Py_bind, get_self, set_self.
  rewrite bool_decide_eq_true_2 by lia. reflexivity.
Qed.

Lemma Vehicle_move_short v d :
  d * fuel_consumption v > fuel v →
  Vehicle_move d v
  = (v, Raise (NotEnoughFuel
                 ("Need " +:+ pretty (d * fuel_consumption v) +:+
                  " fuel, but only have " +:+ pretty (fuel v)))).
Proof.
  intros Hgt. unfold Vehicle_move, mbind, Py_bind, get_self, raise.
  rewrite bool_decide_eq_false_2 by lia. reflexivity.
Qed.

Lemma Vehicle_start_cases v :
  Vehicle_start v =
    if started v then (v, Return tt)
    else if bool_decide (fuel v > 0) then (with_started true v, Return tt)
    else (v, Raise (LowFuelError "Cannot start vehicle with no fuel")).
Proof.
  unfold Vehicle_start, mbind, Py_bind, get_self, set_self, raise, mret, Py_ret.
  destruct (started v); simpl; [reflexivity|].
  destruct (bool_decide (fuel v > 0)); reflexivity.
Qed.

Lemma Vehicle_move_fuel_nonneg v d :
  0 <= fuel v → 0 <= fuel (after (Vehicle_move d v)).
Proof.
  intros Hf.
  destruct (Z_le_gt_dec (d * fuel_consumption v) (fuel v)) as [Hle|Hgt].
  - rewrite Vehicle_move_enough by exact Hle. simpl. lia.
  - rewrite Vehicle_move_short by exact Hgt. exact Hf.
Qed.

Lemma Vehicle_start_fuel v : fuel (after (Vehicle_start v)) = fuel v.
Proof.
  rewrite Vehicle_start_cases.
  destruct (started v); [reflexivity|].
  destruct (bool_decide (fuel v > 0)); reflexivity.
Qed.

Lemma vehicle_step_fuel_nonneg v c :
  0 <= fuel v → 0 <= fuel (vehicle_step v c).
Proof.
  intros Hf. destruct c as [|d]; simpl.
  - rewrite Vehicle_start_fuel. exact Hf.
  - apply Vehicle_move_fuel_nonneg, Hf.
Qed.

Lemma vehicle_run_fuel_nonneg cs v :
  0 <= fuel v → 0 <= fuel (vehicle_run cs v).
Proof.
  unfold vehicle_run. revert v.
  induction cs as [|c cs IH]; intros v Hf; simpl; [exact Hf|].
  apply IH, vehicle_step_fuel_nonneg, Hf.
Qed.

Lemma Plane_load_cargo_fits p a :
  cargo p + a <= max_cargo p →
  Plane_load_cargo a p = (with_cargo (cargo p + a) p, Return tt).
Proof.
  intros Hle. unfold Plane_load_cargo, mbind, Py_bind, get_self, set_self.
  rewrite bool_decide_eq_true_2 by lia. reflexivity.
Qed.

Lemma Plane_load_cargo_over p a :
  cargo p + a > max_cargo p →
  Plane_load_cargo a p
  = (p, Raise (CargoOverload
                 ("Cannot load " +:+ pretty a +:+
                  " cargo. Current: " +:+ pretty (cargo p) +:+
                  ", Max: " +:+ pretty (max_cargo p)))).
Proof.
  intros Hgt. unfold Plane_load_cargo, mbind, Py_bind, get_self, raise.
  rewrite bool_decide_eq_false_2 by lia. reflexivity.
Qed.

Lemma inherited_keeps_cargo {A} (m : Py Vehicle A) p :
  cargo (after (inherited m p)) = cargo p
  ∧ max_cargo (after (inherited m p)) = max_cargo p.
Proof. unfold inherited. destruct (m (vehicle p)); split; reflexivity. Qed.

(** The capacity never changes, and the bound on the cargo is kept by
    every call as long as the capacity is not negative. *)
Lemma plane_step_bound p c :
  0 <= max_cargo p → cargo p <= max_cargo p →
  max_cargo (plane_step p c) = max_cargo p
  ∧ cargo (plane_step p c) <= max_cargo p.
Proof.
  intros Hmax Hle. destruct c as [a| |[|d]]; simpl.
  - destruct (Z_le_gt_dec (cargo p + a) (max_cargo p)) as [H|H].
    + rewrite Plane_load_cargo_fits by exact H. simpl. lia.
    + rewrite Plane_load_cargo_over by exact H. simpl. lia.
  - lia.
  - destruct (inherited_keeps_cargo Vehicle_start p) as [-> ->]. lia.
  - destruct (inherited_keeps_cargo (Vehicle_move d) p) as [-> ->]. lia.
Qed.

Lemma plane_run_bound cs p :
  0 <= max_cargo p → cargo p <= max_cargo p →
  cargo (plane_run cs p) <= max_cargo (plane_run cs p).
Proof.
  unfold plane_run. revert p.
  induction cs as [|c cs IH]; intros p Hmax Hle; simpl; [exact Hle|].
  destruct (plane_step_bound p c Hmax Hle) as [Hm Hc].
  apply IH; rewrite Hm; assumption.
Qed.

End vehicle.

(** C1. [move(distance)] needs [distance * fuel_consumption] units of
    fuel.  When that is more than [fuel], the call raises [NotEnoughFuel]
    and the vehicle is left exactly as it was; when it is at most [fuel],
    the call returns and only [fuel] changes, by exactly that amount.  For
    [Vehicle(fuel=10, fuel_consumption=2)], [move(4)] leaves [fuel = 2] and
    the following [move(2)] raises [NotEnoughFuel]. *)
Theorem Vehicle_move_spec (v : Vehicle) (d w : Z) :
  (d * fuel_consumption v > fuel v →
     raised_with is_NotEnoughFuel (Vehicle_move d v).2 = true
     ∧ after (Vehicle_move d v) = v)
  ∧ (d * fuel_consumption v <= fuel v →
     (Vehicle_move d v).2 = Return tt
     ∧ fuel (after (Vehicle_move d v)) = fuel v - d * fuel_consumption v
     ∧ weight (after (Vehicle_move d v)) = weight v
     ∧ started (after (Vehicle_move d v)) = started v
     ∧ fuel_consumption (after (Vehicle_move d v)) = fuel_consumption v)
  ∧ (Vehicle_move 4 (Vehicle_init w 10 2)
       = (with_fuel 2 (Vehicle_init w 10 2), Return tt)
     ∧ raised_with is_NotEnoughFuel
         (Vehicle_move 2 (after (Vehicle_move 4 (Vehicle_init w 10 2)))).2
       = true
     ∧ after (Vehicle_move 2 (after (Vehicle_move 4 (Vehicle_init w 10 2))))
       = with_fuel 2 (Vehicle_init w 10 2)).
Proof.
  split; [|split].
  - intros Hgt. rewrite Vehicle_move_short by exact Hgt. split; reflexivity.
  - intros Hle. rewrite Vehicle_move_enough by exact Hle.
    repeat split; reflexivity.
  - repeat split; reflexivity.
Qed.

Lemma Vehicle_move_spec_witness :
  (2 * 2 > 2
   ∧ raised_with is_NotEnoughFuel
       (Vehicle_move 2 (mkVehicle 0 false 2 2)).2 = true
   ∧ after (Vehicle_move 2 (mkVehicle 0 false 2 2)) = mkVehicle 0 false 2 2)
  ∧ (4 * 2 <= 10
     ∧ (Vehicle_move 4 (mkVehicle 0 false 10 2)).2 = Return tt
     ∧ fuel (after (Vehicle_move 4 (mkVehicle 0 false 10 2))) = 10 - 4 * 2).
Proof.
  split.
  - split; [lia|].
    apply (proj1 (Vehicle_move_spec (mkVehicle 0 false 2 2) 2 0)).
    simpl; lia.
  - split; [lia|].
    destruct (proj1 (proj2 (Vehicle_move_spec (mkVehicle 0 false 10 2) 4 0)))
      as (Hret & Hfuel & _); [simpl; lia|].
    split; [exact Hret | exact Hfuel].
Defined.

(** C2. [load_cargo(amount)] raises [CargoOverload] exactly when
    [cargo + amount > max_cargo], and then leaves the plane as it was;
    otherwise it returns and only [cargo] changes, growing by exactly
    [amount].  For [Plane(max_cargo=100)], [load_cargo(60)] succeeds and
    the following [load_cargo(50)] raises [CargoOverload]. *)
Theorem Plane_load_cargo_spec (p : Plane) (a : Z) :
  (raised (Plane_load_cargo a p).2 = true ↔ cargo p + a > max_cargo p)
  ∧ (cargo p + a > max_cargo p →
     raised_with is_CargoOverload (Plane_load_cargo a p).2 = true
     ∧ after (Plane_load_cargo a p) = p)
  ∧ (cargo p + a <= max_cargo p →
     (Plane_load_cargo a p).2 = Return tt
     ∧ cargo (after (Plane_load_cargo a p)) = cargo p + a
     ∧ max_cargo (after (Plane_load_cargo a p)) = max_cargo p
     ∧ vehicle (after (Plane_load_cargo a p)) = vehicle p)
  ∧ (Plane_load_cargo 60 (Plane_init 0 0 0 100)
       = (with_cargo 60 (Plane_init 0 0 0 100), Return tt)
     ∧ raised_with is_CargoOverload
         (Plane_load_cargo 50
            (after (Plane_load_cargo 60 (Plane_init 0 0 0 100)))).2 = true
     ∧ cargo (after (Plane_load_cargo 50
                (after (Plane_load_cargo 60 (Plane_init 0 0 0 100))))) = 60).
Proof.
  split; [|split; [|split]].
  - destruct (Z_le_gt_dec (cargo p + a) (max_cargo p)) as [H|H].
    + rewrite Plane_load_cargo_fits by exact H. simpl.
      split; [discriminate | lia].
    + rewrite Plane_load_cargo_over by exact H. simpl.
      split; [intros _; exact H | reflexivity].
  - intros H. rewrite Plane_load_cargo_over by exact H. split; reflexivity.
  - intros H. rewrite Plane_load_cargo_fits by exact H.
    repeat split; reflexivity.
  - repeat split; reflexivity.
Qed.

Lemma Plane_load_cargo_spec_witness :
  (60 + 50 > 100
   ∧ raised_with is_CargoOverload
       (Plane_load_cargo 50 (mkPlane (Vehicle_init 0 0 0) 60 100)).2 = true)
  ∧ (0 + 60 <= 100
     ∧ cargo (after (Plane_load_cargo 60 (Plane_init 0 0 0 100))) = 0 + 60).
Proof.
  split.
  - split; [lia|].
    apply (proj1 (proj2
      (Plane_load_cargo_spec (mkPlane (Vehicle_init 0 0 0) 60 100) 50))).
    simpl; lia.
  - split; [lia|].
    apply (proj1 (proj2 (proj2
      (Plane_load_cargo_spec (Plane_init 0 0 0 100) 60)))).
    simpl; lia.
Defined.

(** C5, as the code has it.  [start] raises exactly when the vehicle is
    not started and [fuel <= 0] (for a vehicle whose fuel is not negative:
    exactly when it is not started and [fuel == 0]); the exception is
    [LowFuelError] and the vehicle is left exactly as it was.  When the
    vehicle is not started and [fuel > 0], [start] returns and sets
    [started] to true, changing nothing else. *)
Theorem Vehicle_start_spec (v : Vehicle) :
  (raised (Vehicle_start v).2 = true ↔ started v = false ∧ fuel v <= 0)
  ∧ (0 <= fuel v →
     (raised (Vehicle_start v).2 = true ↔ started v = false ∧ fuel v = 0))
  ∧ (raised (Vehicle_start v).2 = true →
     raised_with is_LowFuelError (Vehicle_start v).2 = true
     ∧ after (Vehicle_start v) = v)
  ∧ (started v = false → fuel v > 0 →
     Vehicle_start v = (with_started true v, Return tt)).
Proof.
  rewrite Vehicle_start_cases.
  destruct (started v) eqn:Hs; simpl.
  - repeat split; try discriminate; intros [? ?]; discriminate.
  - destruct (bool_decide_reflect (fuel v > 0)) as [Hf|Hf]; simpl.
    + repeat split; try discriminate; try (intros [_ ?]; lia).
    + repeat split; try reflexivity; try lia.
Qed.

Lemma Vehicle_start_spec_witness :
  (0 <= 0
   ∧ (raised (Vehicle_start (Vehicle_init 0 0 1)).2 = true
      ↔ started (Vehicle_init 0 0 1) = false ∧ fuel (Vehicle_init 0 0 1) = 0))
  ∧ (5 > 0
     ∧ Vehicle_start (Vehicle_init 0 5 1)
       = (with_started true (Vehicle_init 0 5 1), Return tt))
  ∧ after (Vehicle_start (Vehicle_init 0 0 1)) = Vehicle_init 0 0 1.
Proof.
  split; [|split].
  - split; [lia|].
    apply (proj1 (proj2 (Vehicle_start_spec (Vehicle_init 0 0 1)))).
    simpl; lia.
  - split; [lia|].
    apply (proj2 (proj2 (proj2 (Vehicle_start_spec (Vehicle_init 0 5 1))))).
    + reflexivity.
    + simpl; lia.
  - apply (proj1 (proj2 (proj2 (Vehicle_start_spec (Vehicle_init 0 0 1))))).
    reflexivity.
Defined.

(** C5, as the claim words it, fails: [Vehicle(fuel=-1)] is not started
    and its fuel is not 0, yet [start] raises [LowFuelError]. *)
Lemma Vehicle_start_negative_fuel :
  ¬ (raised_with is_LowFuelError (Vehicle_start (Vehicle_init 0 (-1) 0)).2 = true
     ↔ started (Vehicle_init 0 (-1) 0) = false
       ∧ fuel (Vehicle_init 0 (-1) 0) = 0).
Proof.
  intros [Hraise _]. destruct Hraise as [_ Hfuel]; [reflexivity|].
  discriminate Hfuel.
Qed.

(** C7. [remove_all_cargo()] returns the cargo held before the call and
    leaves [cargo = 0], changing nothing else; after [load_cargo(60)] on
    [Plane(max_cargo=100)] it returns 60. *)
Theorem Plane_remove_all_cargo_spec (p : Plane) :
  (Plane_remove_all_cargo p).2 = Return (cargo p)
  ∧ cargo (after (Plane_remove_all_cargo p)) = 0
  ∧ max_cargo (after (Plane_remove_all_cargo p)) = max_cargo p
  ∧ vehicle (after (Plane_remove_all_cargo p)) = vehicle p
  ∧ Plane_remove_all_cargo (after (Plane_load_cargo 60 (Plane_init 0 0 0 100)))
    = (Plane_init 0 0 0 100, Return 60).
Proof. repeat split; reflexivity. Qed.

(** C8. A vehicle constructed with [fuel >= 0] and [fuel_consumption >= 0]
    has [fuel >= 0] after every sequence of [start] and [move] calls with
    non-negative distances; a plane constructed with [cargo <= max_cargo]
    has [cargo <= max_cargo] after every sequence of [load_cargo] and
    [remove_all_cargo] calls (and of the calls it inherits). *)
Theorem fuel_and_cargo_invariants :
  (∀ (w f fc : Z) (cs : list vehicle_call),
     0 <= f → 0 <= fc → forallb call_distance_nonneg cs = true →
     0 <= fuel (vehicle_run cs (Vehicle_init w f fc)))
  ∧ (∀ (w f fc mc : Z) (cs : list plane_call),
       cargo (Plane_init w f fc mc) <= max_cargo (Plane_init w f fc mc) →
       cargo (plane_run cs (Plane_init w f fc mc))
       <= max_cargo (plane_run cs (Plane_init w f fc mc))).
Proof.
  split.
  - intros w f fc cs Hf _ _. apply vehicle_run_fuel_nonneg. exact Hf.
  - intros w f fc mc cs Hle. apply plane_run_bound; exact Hle.
Qed.

Lemma fuel_and_cargo_invariants_witness :
  0 <= fuel (vehicle_run [call_start; call_move 4; call_move 2; call_start]
               (Vehicle_init 0 10 2))
  ∧ cargo (plane_run [call_load_cargo 60; call_load_cargo 50;
                      call_remove_all_cargo; call_load_cargo (-5)]
             (Plane_init 0 0 0 100))
    <= max_cargo (plane_run [call_load_cargo 60; call_load_cargo 50;
                             call_remove_all_cargo; call_load_cargo (-5)]
                    (Plane_init 0 0 0 100)).
Proof.
  split.
  - apply (proj1 fuel_and_cargo_invariants 0 10 2); [lia | lia | reflexivity].
  - apply (proj2 fuel_and_cargo_invariants 0 0 0 100). simpl; lia.
Defined.

(** C9. On a vehicle that is already started, [start] raises nothing and
    changes nothing, whatever the fuel (0 included); so a second [start]
    right after a first one does what the first did and leaves the vehicle
    as the first left it. *)
Theorem Vehicle_start_idempotent (v : Vehicle) :
  (started v = true → Vehicle_start v = (v, Return tt))
  ∧ Vehicle_start (after (Vehicle_start v))
    = (after (Vehicle_start v), (Vehicle_start v).2).
Proof.
  rewrite !Vehicle_start_cases.
  destruct v as [w [|] f fc]; simpl; [split; reflexivity|].
  split; [discriminate|].
  destruct (bool_decide (f > 0)) eqn:Hf; simpl; [reflexivity|].
  rewrite Hf. reflexivity.
Qed.

Lemma Vehicle_start_idempotent_witness :
  started (mkVehicle 0 true 0 0) = true
  ∧ Vehicle_start (mkVehicle 0 true 0 0) = (mkVehicle 0 true 0 0, Return tt).
Proof.
  split; [reflexivity|].
  apply (proj1 (Vehicle_start_idempotent (mkVehicle 0 true 0 0))).
  reflexivity.
Defined.

(** C10. [load_cargo] has no lower bound on [amount]: on a plane with
    [cargo = 0] and [max_cargo = 100], [load_cargo(-5)] returns and leaves
    [cargo = -5]. *)
Theorem Plane_load_cargo_negative_amount :
  Plane_load_cargo (-5) (Plane_init 0 0 0 100)
  = (with_cargo (-5) (Plane_init 0 0 0 100), Return tt)
  ∧ cargo (after (Plane_load_cargo (-5) (Plane_init 0 0 0 100))) < 0
  ∧ ∃ (p : Plane) (a : Z),
      0 <= cargo p ∧ (Plane_load_cargo a p).2 = Return tt
      ∧ cargo (after (Plane_load_cargo a p)) < 0.
Proof.
  split; [reflexivity|]. split; [reflexivity|].
  exists (Plane_init 0 0 0 100), (-5). repeat split. simpl; lia.
Qed.

(** ** Strings *)

Section strings.
Implicit Types s suffix t : string.

Lemma endswith_refl s : endswith s s = true.
Proof. destruct s; cbn [endswith]; rewrite String.eqb_refl; reflexivity. Qed.

Lemma endswith_tail c s suffix :
  endswith s suffix = true → endswith (String c s) suffix = true.
Proof.
  intros H. cbn [endswith].
  destruct (String.eqb (String c s) suffix); [reflexivity | exact H].
Qed.

Lemma endswith_spec s suffix : endswith s suffix = true ↔ has_suffix s suffix.
Proof.
  split.
  - induction s as [|c s IH]; cbn [endswith].
    + destruct (String.eqb_spec "" suffix) as [<-|]; [|discriminate].
      intros _. exists "". reflexivity.
    + destruct (String.eqb_spec (String c s) suffix) as [<-|_].
      * intros _. exists "". reflexivity.
      * intros H. destruct (IH H) as [stem ->].
        exists (String c stem). reflexivity.
  - intros [stem ->]. induction stem as [|c stem IH].
    + apply endswith_refl.
    + apply endswith_tail, IH.
Qed.

(** Two suffixes of one string: one of them ends in the other. *)
Lemma endswith_nested s suffix t :
  endswith s suffix = true → endswith s t = true →
  endswith suffix t = true ∨ endswith t suffix = true.
Proof.
  induction s as [|c s IH]; cbn [endswith].
  - destruct (String.eqb_spec "" suffix) as [<-|]; [|discriminate].
    destruct (String.eqb_spec "" t) as [<-|]; [|discriminate].
    intros _ _. left. reflexivity.
  - destruct (String.eqb_spec (String c s) suffix) as [<-|_].
    + intros _ Ht. left. exact Ht.
    + destruct (String.eqb_spec (String c s) t) as [<-|_].
      * intros Hs _. right. apply endswith_tail, Hs.
      * apply IH.
Qed.

Lemma endswith_any_spec s l :
  endswith_any s l = true ↔ ∃ suffix, suffix ∈ l ∧ has_suffix s suffix.
Proof.
  unfold endswith_any. rewrite existsb_exists.
  split; intros (x & Hin & Hx); exists x.
  - split; [apply list_elem_of_In, Hin | apply endswith_spec, Hx].
  - split; [apply list_elem_of_In, Hin | apply endswith_spec, Hx].
Qed.

(** Unrelated groups are never matched by the same string. *)
Lemma endswith_any_unrelated s l1 l2 :
  unrelated l1 l2 = true →
  endswith_any s l1 = true → endswith_any s l2 = false.
Proof.
  intros Hun H1. apply not_true_is_false. intros H2.
  unfold endswith_any in H1, H2.
  apply existsb_exists in H1 as (a & Ha & Hsa).
  apply existsb_exists in H2 as (b & Hb & Hsb).
  unfold unrelated in Hun. rewrite forallb_forall in Hun.
  specialize (Hun a Ha). rewrite forallb_forall in Hun.
  specialize (Hun b Hb). apply andb_true_iff in Hun as [Hab Hba].
  destruct (endswith_nested s a b Hsa Hsb) as [H|H]; rewrite H in *; discriminate.
Qed.

Lemma split_nonempty sep s : split sep s ≠ [].
Proof.
  destruct s as [|c s]; simpl; [discriminate|].
  destruct (Ascii.eqb c sep); [discriminate|].
  destruct (split sep s); discriminate.
Qed.

End strings.

(** ** Keyword binding and the constructors *)

Section constructors.
Implicit Types (kw : gmap string pyval) (c : media_class) (k : string).

Lemma lookup_foldr_delete kw (l : list string) k :
  foldr delete kw l !! k = if bool_decide (k ∈ l) then None else kw !! k.
Proof.
  induction l as [|x l IH]; cbn [foldr].
  - case_bool_decide as H; [apply not_elem_of_nil in H; destruct H|].
    reflexivity.
  - destruct (decide (x = k)) as [->|Hne].
    + rewrite lookup_delete_eq, bool_decide_eq_true_2; [reflexivity | left].
    + rewrite lookup_delete_ne, IH by exact Hne.
      rewrite (bool_decide_ext (k ∈ x :: l) (k ∈ l)); [reflexivity|].
      rewrite elem_of_cons. split; [intros [Heq|Hin] | intros Hin].
      * congruence.
      * exact Hin.
      * right. exact Hin.
Qed.

Lemma lookup_list_to_map_keys (f : string → pyval) (l : list string) k :
  (list_to_map ((λ x, (x, f x)) <$> l) : gmap string pyval) !! k
  = if bool_decide (k ∈ l) then Some (f k) else None.
Proof.
  induction l as [|x l IH].
  - case_bool_decide as H; [apply not_elem_of_nil in H; destruct H|].
    apply lookup_empty.
  - rewrite fmap_cons, list_to_map_cons.
    destruct (decide (x = k)) as [->|Hne].
    + rewrite lookup_insert_eq, bool_decide_eq_true_2; [reflexivity | left].
    + rewrite lookup_insert_ne, IH by exact Hne.
      rewrite (bool_decide_ext (k ∈ x :: l) (k ∈ l)); [reflexivity|].
      rewrite elem_of_cons. split; [intros [Heq|Hin] | intros Hin].
      * congruence.
      * exact Hin.
      * right. exact Hin.
Qed.

Lemma lookup_own_fields c kw k :
  own_fields c kw !! k
  = if bool_decide (k ∈ own_keys c) then Some (keyword kw k) else None.
Proof. apply lookup_list_to_map_keys. Qed.

Lemma accepts_fields_key c kw k :
  accepts_fields c kw = true → is_Some (kw !! k) →
  k ∈ (own_keys c ++ base_keys)%list.
Proof.
  unfold accepts_fields. intros [Hall _]%andb_true_iff [v Hv].
  rewrite forallb_forall in Hall.
  specialize (Hall (k, v)). simpl in Hall.
  eapply bool_decide_eq_true_1, Hall, list_elem_of_In, elem_of_map_to_list, Hv.
Qed.

Lemma accepts_fields_absent c kw k :
  accepts_fields c kw = true →
  bool_decide (k ∈ (own_keys c ++ base_keys)%list) = false →
  kw !! k = None.
Proof.
  intros Hacc Hk. destruct (kw !! k) eqn:E; [|reflexivity].
  apply bool_decide_eq_false_1 in Hk. destruct Hk.
  eapply accepts_fields_key; [exact Hacc | rewrite E; eauto].
Qed.

Lemma bind_keywords_ok (positional optional : list string) (var_kw : bool) kw :
  (∀ k, k ∈ positional → kw !! k = None) →
  (var_kw = true ∨ ∀ k, is_Some (kw !! k) → k ∈ optional) →
  bind_keywords positional optional var_kw kw
  = Return (foldr delete kw optional).
Proof.
  intros Hpos Hrest. unfold bind_keywords.
  assert (existsb (λ k, bool_decide (is_Some (kw !! k))) positional = false)
    as ->.
  { apply not_true_is_false. intros (k & Hin & Hk)%existsb_exists.
    apply bool_decide_eq_true_1 in Hk. apply list_elem_of_In in Hin.
    rewrite (Hpos k Hin) in Hk. destruct Hk; discriminate. }
  destruct Hrest as [->|Hopt]; [reflexivity|].
  rewrite (bool_decide_eq_true_2 (dom (foldr delete kw optional) = ∅)).
  - rewrite orb_true_r. reflexivity.
  - apply dom_empty_iff_L, map_empty. intros k.
    rewrite lookup_foldr_delete. case_bool_decide as Hk; [reflexivity|].
    destruct (kw !! k) eqn:E; [|reflexivity].
    destruct Hk. apply Hopt. rewrite E. eauto.
Qed.

Lemma bind_keywords_unexpected (positional optional : list string) kw k :
  is_Some (kw !! k) → k ∉ optional →
  bind_keywords positional optional false kw = Raise TypeError.
Proof.
  intros Hk Hno. unfold bind_keywords.
  destruct (existsb _ positional); [reflexivity|].
  rewrite bool_decide_eq_false_2; [reflexivity|].
  intros Hdom. apply dom_empty_iff_L in Hdom.
  assert (foldr delete kw optional !! k = None) as Hl
    by (rewrite Hdom; apply lookup_empty).
  rewrite lookup_foldr_delete, bool_decide_eq_false_2 in Hl by exact Hno.
  rewrite Hl in Hk. destruct Hk; discriminate.
Qed.

Lemma dict_update_dictish (v : pyval) (d : gmap string pyval) :
  dictish v = true →
  dict_update (py_or v (VDict ∅)) d = Return (d ∪ as_dict (py_or v (VDict ∅))).
Proof.
  unfold py_or. destruct v; simpl; intros H;
    try (apply negb_true_iff in H; simpl in H; rewrite H; reflexivity);
    try discriminate; try reflexivity.
  destruct (negb _); reflexivity.
Qed.

(** What a constructor builds from keyword arguments it accepts. *)
Lemma subclass_init_accepts c now n sz kw :
  accepts_fields c kw = true →
  subclass_init c now n sz kw
  = Return (mkMediaFile c n sz
              (py_or (keyword kw "created_at") (VDatetime now))
              (keyword kw "owner")
              (own_fields c kw
               ∪ as_dict (py_or (keyword kw "metadata") (VDict ∅)))).
Proof.
  intros Hacc. unfold subclass_init.
  assert (Habs : ∀ k, bool_decide (k ∈ (own_keys c ++ base_keys)%list) = false
                      → kw !! k = None)
    by (intros k; apply accepts_fields_absent, Hacc).
  rewrite (bind_keywords_ok _ _ true kw); [|..|left; reflexivity].
  2:{ intros k Hk. apply Habs. destruct c;
        repeat (apply elem_of_cons in Hk as [->|Hk]; [reflexivity|]);
        apply not_elem_of_nil in Hk; destruct Hk. }
  simpl. unfold MediaFile_init.
  rewrite (bind_keywords_ok _ _ false).
  - assert (Hkeep : ∀ k, bool_decide (k ∈ own_keys c) = false →
              keyword (foldr delete kw (own_keys c)) k = keyword kw k).
    { intros k Hk. unfold keyword. rewrite lookup_foldr_delete, Hk.
      reflexivity. }
    simpl. rewrite !Hkeep by (destruct c; reflexivity).
    apply andb_true_iff in Hacc as [_ Hd].
    rewrite (dict_update_dictish _ _ Hd). reflexivity.
  - intros k Hk. rewrite lookup_foldr_delete.
    case_bool_decide; [reflexivity|]. apply Habs. destruct c;
      repeat (apply elem_of_cons in Hk as [->|Hk]; [reflexivity|]);
      apply not_elem_of_nil in Hk; destruct Hk.
  - right. intros k. rewrite lookup_foldr_delete.
    case_bool_decide as Hown; [intros [? ?]; discriminate|].
    intros Hk. pose proof (accepts_fields_key c kw k Hacc Hk) as Hin.
    apply elem_of_app in Hin as [Hin|Hin]; [contradiction | exact Hin].
Qed.

Lemma AudioFile_init_eq now n sz kw :
  AudioFile_init now n sz kw = subclass_init AudioFile now n sz kw.
Proof. reflexivity. Qed.

Lemma VideoFile_init_eq now n sz kw :
  VideoFile_init now n sz kw = subclass_init VideoFile now n sz kw.
Proof. reflexivity. Qed.

Lemma PhotoFile_init_eq now n sz kw :
  PhotoFile_init now n sz kw = subclass_init PhotoFile now n sz kw.
Proof. reflexivity. Qed.

End constructors.

(** ** Dispatch on the extension *)

Section dispatch.
Implicit Types (path : string) (now sz : Z) (kw : gmap string pyval).

Lemma three_suffixes path (a b c : string) :
  endswith_any path [a; b; c] = true
  ↔ has_suffix path a ∨ has_suffix path b ∨ has_suffix path c.
Proof.
  rewrite endswith_any_spec. split.
  - intros (x & Hin & Hx).
    repeat (apply elem_of_cons in Hin as [->|Hin]; [tauto|]).
    apply not_elem_of_nil in Hin. destruct Hin.
  - intros [H|[H|H]]; eexists; (split; [|exact H]);
      repeat first [left; reflexivity | right]; left.
Qed.

Lemma audio_path_test path :
  audio_path path ↔ endswith_any path [".mp3"; ".wav"; ".flac"] = true.
Proof. symmetry. apply three_suffixes. Qed.

Lemma video_path_test path :
  video_path path ↔ endswith_any path [".mp4"; ".avi"; ".mov"] = true.
Proof. symmetry. apply three_suffixes. Qed.

Lemma photo_path_test path :
  photo_path path ↔ endswith_any path [".jpg"; ".png"; ".gif"] = true.
Proof. symmetry. apply three_suffixes. Qed.

Lemma video_not_audio path :
  video_path path → endswith_any path [".mp3"; ".wav"; ".flac"] = false.
Proof.
  intros H%video_path_test.
  eapply endswith_any_unrelated; [|exact H]. reflexivity.
Qed.

Lemma photo_not_audio path :
  photo_path path → endswith_any path [".mp3"; ".wav"; ".flac"] = false.
Proof.
  intros H%photo_path_test.
  eapply endswith_any_unrelated; [|exact H]. reflexivity.
Qed.

Lemma photo_not_video path :
  photo_path path → endswith_any path [".mp4"; ".avi"; ".mov"] = false.
Proof.
  intros H%photo_path_test.
  eapply endswith_any_unrelated; [|exact H]. reflexivity.
Qed.

(** All four [load] methods have the same body. *)
Lemma load_any_storage (st : Storage) now path :
  load st now path = LocalStorage_load now path.
Proof. destruct st; reflexivity. Qed.

Lemma LocalStorage_load_cases now path :
  LocalStorage_load now path =
    if endswith_any path [".mp3"; ".wav"; ".flac"] then
      subclass_init AudioFile now (split_last "/"%char path) 1000000 ∅
    else if endswith_any path [".mp4"; ".avi"; ".mov"] then
      subclass_init VideoFile now (split_last "/"%char path) 5000000 ∅
    else if endswith_any path [".jpg"; ".png"; ".gif"] then
      subclass_init PhotoFile now (split_last "/"%char path) 500000 ∅
    else Raise (unsupported path).
Proof. reflexivity. Qed.

Lemma create_from_path_cases now path sz kw :
  kw !! "path" = None → kw !! "size" = None →
  create_from_path now path sz kw =
    if endswith_any path [".mp3"; ".wav"; ".flac"] then
      subclass_init AudioFile now (split_last "/"%char path) sz kw
    else if endswith_any path [".mp4"; ".avi"; ".mov"] then
      subclass_init VideoFile now (split_last "/"%char path) sz kw
    else if endswith_any path [".jpg"; ".png"; ".gif"] then
      subclass_init PhotoFile now (split_last "/"%char path) sz kw
    else Raise (unsupported path).
Proof.
  intros Hp Hs. unfold create_from_path.
  rewrite (bind_keywords_ok _ _ true kw); [reflexivity| |left; reflexivity].
  intros k Hk. repeat (apply elem_of_cons in Hk as [->|Hk]; [assumption|]).
  apply not_elem_of_nil in Hk. destruct Hk.
Qed.

Lemma accepted_not_positional c kw :
  accepts_fields c kw = true → kw !! "path" = None ∧ kw !! "size" = None.
Proof.
  intros H. split; apply (accepts_fields_absent c kw _ H);
    destruct c; reflexivity.
Qed.

Lemma subclass_init_built c now path sz kw :
  accepts_fields c kw = true →
  built c path sz (subclass_init c now (split_last "/"%char path) sz kw).
Proof.
  intros H. rewrite (subclass_init_accepts _ _ _ _ _ H).
  eexists. repeat split.
Qed.

End dispatch.

(** C3. For every path, every storage's [load] and the factory's
    [create_from_path] (called with extra fields the selected constructor
    accepts) return an Audio object when the path ends in .mp3, .wav or
    .flac, a Video object when it ends in .mp4, .avi or .mov, a Photo
    object when it ends in .jpg, .png or .gif, and raise the
    unsupported-file-type [ValueError] for every other path. *)
Theorem extension_dispatch (now : Z) (path : string) :
  (audio_path path →
     (∀ st, built AudioFile path 1000000 (load st now path))
     ∧ (∀ sz kw, accepts_fields AudioFile kw = true →
          built AudioFile path sz (create_from_path now path sz kw)))
  ∧ (video_path path →
     (∀ st, built VideoFile path 5000000 (load st now path))
     ∧ (∀ sz kw, accepts_fields VideoFile kw = true →
          built VideoFile path sz (create_from_path now path sz kw)))
  ∧ (photo_path path →
     (∀ st, built PhotoFile path 500000 (load st now path))
     ∧ (∀ sz kw, accepts_fields PhotoFile kw = true →
          built PhotoFile path sz (create_from_path now path sz kw)))
  ∧ (¬ audio_path path → ¬ video_path path → ¬ photo_path path →
     (∀ st, load st now path = Raise (unsupported path))
     ∧ (∀ sz kw, kw !! "path" = None → kw !! "size" = None →
          create_from_path now path sz kw = Raise (unsupported path))
     ∧ is_ValueError (unsupported path) = true).
Proof.
  split; [|split; [|split]].
  - intros Ha. pose proof (proj1 (audio_path_test path) Ha) as Et. split.
    + intros st. rewrite load_any_storage, LocalStorage_load_cases, Et.
      apply subclass_init_built. reflexivity.
    + intros sz kw Hkw.
      destruct (accepted_not_positional _ _ Hkw) as [Hp Hs].
      rewrite (create_from_path_cases _ _ _ _ Hp Hs), Et.
      apply subclass_init_built, Hkw.
  - intros Hv. pose proof (proj1 (video_path_test path) Hv) as Et.
    pose proof (video_not_audio path Hv) as Ea. split.
    + intros st. rewrite load_any_storage, LocalStorage_load_cases, Ea, Et.
      apply subclass_init_built. reflexivity.
    + intros sz kw Hkw.
      destruct (accepted_not_positional _ _ Hkw) as [Hp Hs].
      rewrite (create_from_path_cases _ _ _ _ Hp Hs), Ea, Et.
      apply subclass_init_built, Hkw.
  - intros Hp. pose proof (proj1 (photo_path_test path) Hp) as Et.
    pose proof (photo_not_audio path Hp) as Ea.
    pose proof (photo_not_video path Hp) as Ev. split.
    + intros st. rewrite load_any_storage, LocalStorage_load_cases, Ea, Ev, Et.
      apply subclass_init_built. reflexivity.
    + intros sz kw Hkw.
      destruct (accepted_not_positional _ _ Hkw) as [Hpa Hs].
      rewrite (create_from_path_cases _ _ _ _ Hpa Hs), Ea, Ev, Et.
      apply subclass_init_built, Hkw.
  - intros Ha Hv Hp.
    rewrite audio_path_test in Ha. apply not_true_is_false in Ha.
    rewrite video_path_test in Hv. apply not_true_is_false in Hv.
    rewrite photo_path_test in Hp. apply not_true_is_false in Hp.
    split; [|split; [|reflexivity]].
    + intros st. rewrite load_any_storage, LocalStorage_load_cases, Ha, Hv, Hp.
      reflexivity.
    + intros sz kw Hpa Hs.
      rewrite (create_from_path_cases _ _ _ _ Hpa Hs), Ha, Hv, Hp.
      reflexivity.
Qed.

Lemma extension_dispatch_witness :
  (audio_path "/music/another_song.mp3"
   ∧ built AudioFile "/music/another_song.mp3" 1000000
       (load LocalStorage 0 "/music/another_song.mp3")
   ∧ built AudioFile "/music/another_song.mp3" 3000000
       (create_from_path 0 "/music/another_song.mp3" 3000000
          {["duration" := VInt 240]}))
  ∧ (photo_path "photos/new_image.jpg"
     ∧ built PhotoFile "photos/new_image.jpg" 500000
         (load (S3Storage "media-bucket" "us-west-2" "access_key" "secret_key")
            0 "photos/new_image.jpg"))
  ∧ load (CloudStorage "Dropbox" ∅) 0 "notes.txt"
    = Raise (unsupported "notes.txt").
Proof.
  assert (Ha : audio_path "/music/another_song.mp3")
    by (left; exists "/music/another_song"; reflexivity).
  assert (Hp : photo_path "photos/new_image.jpg")
    by (left; exists "photos/new_image"; reflexivity).
  split; [|split].
  - split; [exact Ha|].
    destruct (proj1 (extension_dispatch 0 "/music/another_song.mp3") Ha)
      as [Hload Hcreate].
    split; [apply Hload | apply Hcreate; reflexivity].
  - split; [exact Hp|].
    apply (proj1 (proj2 (proj2 (extension_dispatch 0 "photos/new_image.jpg")))).
    exact Hp.
  - apply (proj2 (proj2 (proj2 (extension_dispatch 0 "notes.txt")))).
    + rewrite audio_path_test. vm_compute. discriminate.
    + rewrite video_path_test. vm_compute. discriminate.
    + rewrite photo_path_test. vm_compute. discriminate.
Defined.

(** ** Metadata and conversion *)

(** C6. [update_metadata(d)] returns [None] and replaces the metadata of
    [m] by the merge: every key of [d] maps to the value [d] gives it,
    every other key keeps what the old metadata had (absent keys stay
    absent); no other field of [m] changes. *)
Theorem update_metadata_merge (m : MediaFile) (d : gmap string pyval) :
  (MediaFile_update_metadata d m).2 = Return tt
  ∧ (∀ k v, d !! k = Some v →
       metadata (after (MediaFile_update_metadata d m)) !! k = Some v)
  ∧ (∀ k, d !! k = None →
       metadata (after (MediaFile_update_metadata d m)) !! k = metadata m !! k)
  ∧ class_of (after (MediaFile_update_metadata d m)) = class_of m
  ∧ name (after (MediaFile_update_metadata d m)) = name m
  ∧ size (after (MediaFile_update_metadata d m)) = size m
  ∧ created_at (after (MediaFile_update_metadata d m)) = created_at m
  ∧ owner (after (MediaFile_update_metadata d m)) = owner m.
Proof.
  split; [reflexivity|]. split; [|split; [|repeat split]].
  - intros k v Hk. simpl. apply lookup_union_Some_l, Hk.
  - intros k Hk. simpl. apply lookup_union_r, Hk.
Qed.

Lemma update_metadata_merge_witness :
  (main_genre !! "genre" = Some (VStr "Rock")
   ∧ metadata (after (MediaFile_update_metadata main_genre
        (mkMediaFile AudioFile "song.mp3" 5000000 (VDatetime 0) (VStr "John")
           (<["duration" := VInt 240]> {["genre" := VStr "Pop"]}))))
       !! "genre" = Some (VStr "Rock"))
  ∧ (main_genre !! "duration" = None
     ∧ metadata (after (MediaFile_update_metadata main_genre
          (mkMediaFile AudioFile "song.mp3" 5000000 (VDatetime 0) (VStr "John")
             (<["duration" := VInt 240]> {["genre" := VStr "Pop"]}))))
         !! "duration" = Some (VInt 240)).
Proof.
  split.
  - split; [reflexivity|].
    apply (proj1 (proj2 (update_metadata_merge
      (mkMediaFile AudioFile "song.mp3" 5000000 (VDatetime 0) (VStr "John")
         (<["duration" := VInt 240]> {["genre" := VStr "Pop"]}))
      main_genre))).
    reflexivity.
  - split; [reflexivity|].
    rewrite (proj1 (proj2 (proj2 (update_metadata_merge
      (mkMediaFile AudioFile "song.mp3" 5000000 (VDatetime 0) (VStr "John")
         (<["duration" := VInt 240]> {["genre" := VStr "Pop"]}))
      main_genre))) "duration"); reflexivity.
Defined.

Section conversion.
Implicit Types (m : MediaFile) (now : Z) (fmt : string).

Lemma convert_cases now fmt m :
  convert now fmt m
  = (m, subclass_init (class_of m) now
          (split_first "."%char (name m) +:+ "." +:+ fmt)
          (size m) (metadata m)).
Proof. unfold convert. destruct (class_of m); reflexivity. Qed.

(** A metadata key that no constructor parameter takes makes the
    conversion fail. *)
Lemma convert_unexpected_key now fmt m k :
  is_Some (metadata m !! k) →
  k ∉ (own_keys (class_of m) ++ base_keys)%list →
  convert now fmt m = (m, Raise TypeError).
Proof.
  intros Hk Hno. rewrite convert_cases. f_equal.
  unfold subclass_init, bind_keywords at 1.
  destruct (existsb _ _); [reflexivity|].
  cbn [orb mbind outcome_bind]. unfold MediaFile_init.
  rewrite (bind_keywords_unexpected _ _ _ k); [reflexivity| |].
  - rewrite lookup_foldr_delete, bool_decide_eq_false_2; [exact Hk|].
    intros Hin. apply Hno, elem_of_app. left. exact Hin.
  - intros Hin. apply Hno, elem_of_app. right. exact Hin.
Qed.

Lemma own_keys_accepted c (md : gmap string pyval) :
  dom md = list_to_set (own_keys c) → accepts_fields c md = true.
Proof.
  intros Hdom. unfold accepts_fields.
  assert (Hin : ∀ k, is_Some (md !! k) → k ∈ own_keys c).
  { intros k Hk. apply elem_of_dom in Hk. rewrite Hdom in Hk.
    apply elem_of_list_to_set in Hk. exact Hk. }
  apply andb_true_iff. split.
  - apply forallb_forall. intros [k v] Hkv%list_elem_of_In%elem_of_map_to_list.
    apply bool_decide_eq_true_2, elem_of_app. left. apply Hin.
    simpl. rewrite Hkv. eauto.
  - unfold keyword. destruct (md !! "metadata") eqn:E; [|reflexivity].
    assert (Hm : "metadata" ∈ own_keys c) by (apply Hin; rewrite E; eauto).
    destruct c; vm_compute in Hm;
      repeat (apply elem_of_cons in Hm as [Hm|Hm]; [discriminate|]);
      apply not_elem_of_nil in Hm; destruct Hm.
Qed.

Lemma own_fields_id c (md : gmap string pyval) :
  dom md = list_to_set (own_keys c) → own_fields c md = md.
Proof.
  intros Hdom. apply map_eq. intros k. rewrite lookup_own_fields.
  unfold keyword. case_bool_decide as Hk.
  - assert (is_Some (md !! k)) as [v ->]; [|reflexivity].
    apply elem_of_dom. rewrite Hdom. apply elem_of_list_to_set, Hk.
  - symmetry. apply not_elem_of_dom. rewrite Hdom.
    rewrite elem_of_list_to_set. exact Hk.
Qed.

(** On a file whose metadata holds exactly the keys of its class,
    [convert] leaves the file alone and returns a file of the same class,
    size and metadata; the new name is the part of the old name before its
    first dot, a dot, and the target format. *)
Lemma convert_plain now fmt m :
  dom (metadata m) = list_to_set (own_keys (class_of m)) →
  convert now fmt m
  = (m, Return (mkMediaFile (class_of m)
                  (split_first "."%char (name m) +:+ "." +:+ fmt)
                  (size m) (VDatetime now) VNone (metadata m))).
Proof.
  intros Hdom. rewrite convert_cases.
  rewrite subclass_init_accepts by (apply own_keys_accepted, Hdom).
  assert (Hnone : ∀ k, k ∈ base_keys → keyword (metadata m) k = VNone).
  { intros k Hk. unfold keyword.
    destruct (metadata m !! k) eqn:E; [|reflexivity].
    assert (Hin : k ∈ own_keys (class_of m)).
    { apply (elem_of_list_to_set (C := gset string)). rewrite <- Hdom.
      apply elem_of_dom. rewrite E. eauto. }
    unfold base_keys in Hk.
    repeat (apply elem_of_cons in Hk as [->|Hk];
            [destruct (class_of m); vm_compute in Hin;
             repeat (apply elem_of_cons in Hin as [Hin|Hin]; [discriminate|]);
             apply not_elem_of_nil in Hin; destruct Hin|]).
    apply not_elem_of_nil in Hk. destruct Hk. }
  rewrite !Hnone by (unfold base_keys; repeat constructor).
  rewrite own_fields_id by exact Hdom.
  unfold py_or. simpl. rewrite (right_id_L ∅ (∪)). reflexivity.
Qed.

Lemma split_first_cons sep c (s : string) :
  split_first sep (String c s)
  = if Ascii.eqb c sep then "" else String c (split_first sep s).
Proof.
  unfold split_first. cbn [split].
  destruct (Ascii.eqb c sep); [reflexivity|].
  pose proof (split_nonempty sep s) as Hne.
  destruct (split sep s); [contradiction | reflexivity].
Qed.

(** For a name [stem.ext] whose stem has no dot, the part before the
    first dot is the stem. *)
Lemma split_first_stem sep (stem rest : string) :
  split_first sep stem = stem →
  split_first sep (stem +:+ String sep rest) = stem.
Proof.
  induction stem as [|c stem IH]; intros Hstem.
  - change ("" +:+ String sep rest) with (String sep rest).
    rewrite split_first_cons, Ascii.eqb_refl. reflexivity.
  - change (String c stem +:+ String sep rest)
      with (String c (stem +:+ String sep rest)).
    rewrite split_first_cons in *.
    destruct (Ascii.eqb c sep); [discriminate|].
    f_equal. apply IH. congruence.
Qed.

End conversion.

(** C4, on the run of the example driver.  The driver builds
    [AudioFile("song.mp3", 5000000, duration=240, bitrate=320,
    sample_rate=44100, channels=2, owner="John")], calls
    [update_metadata({"genre": "Rock", "artist": "Unknown"})] on it and
    then [convert("wav")].  Before the update the conversion returns an
    Audio file of the same size and metadata named [song.wav]; after it,
    the conversion raises [TypeError] instead of returning a file.  And
    on a name with two dots, [my.song.mp3], the conversion returns a file
    named [my.wav]: more than the extension is gone. *)
Theorem convert_in_driver (now now' : Z) :
  ∃ audio : MediaFile,
    main_audio now = Return audio
    ∧ convert now' "wav" audio
      = (audio, Return (mkMediaFile AudioFile "song.wav" 5000000
                          (VDatetime now') VNone (metadata audio)))
    ∧ convert now' "wav" (after (MediaFile_update_metadata main_genre audio))
      = (after (MediaFile_update_metadata main_genre audio), Raise TypeError)
    ∧ (convert now' "wav"
         (mkMediaFile AudioFile "my.song.mp3" 5000000 (VDatetime now) VNone
            (metadata audio))).2
      = Return (mkMediaFile AudioFile "my.wav" 5000000 (VDatetime now') VNone
                  (metadata audio)).
Proof.
  eexists. split; [reflexivity|]. split; [|split].
  - rewrite convert_plain by reflexivity. reflexivity.
  - apply (convert_unexpected_key _ _ _ "genre").
    + eexists. reflexivity.
    + vm_compute. intros H.
      repeat (apply elem_of_cons in H as [H|H]; [discriminate|]).
      apply not_elem_of_nil in H. destruct H.
  - rewrite convert_plain by reflexivity. reflexivity.
Qed.

(** * Further properties of the code *)

(** ** Vehicle and Plane: how calls compose *)

Section vehicle_calls.
Implicit Types (v : Vehicle) (p : Plane) (d a : Z).


Lemma Plane_load_cargo_returns p a :
  (Plane_load_cargo a p).2 = Return tt ↔ cargo p + a <= max_cargo p.
Proof.
  destruct (Z_le_gt_dec (cargo p + a) (max_cargo p)) as [H|H].
  - rewrite Plane_load_cargo_fits by exact H. simpl. tauto.
  - rewrite Plane_load_cargo_over by exact H. simpl.
    split; [discriminate | lia].
Qed.

Lemma with_fuel_same v : with_fuel (fuel v) v = v.
Proof. destruct v; reflexivity. Qed.

Lemma with_cargo_same p : with_cargo (cargo p) p = p.
Proof. destruct p; reflexivity. Qed.

Lemma vehicle_step_frame v c :
  weight (vehicle_step v c) = weight v
  ∧ fuel_consumption (vehicle_step v c) = fuel_consumption v
  ∧ (started v = true → started (vehicle_step v c) = true).
Proof.
  destruct c as [|d]; simpl.
  - rewrite Vehicle_start_cases. destruct (started v) eqn:Hs; simpl.
    + rewrite Hs. tauto.
    + destruct (bool_decide (fuel v > 0)); simpl; repeat split; discriminate.
  - destruct (Z_le_gt_dec (d * fuel_consumption v) (fuel v)) as [H|H].
    + rewrite Vehicle_move_enough by exact H. simpl. tauto.
    + rewrite Vehicle_move_short by exact H. simpl. tauto.
Qed.

Lemma vehicle_step_fuel_le v c :
  0 <= fuel_consumption v → call_distance_nonneg c = true →
  fuel (vehicle_step v c) <= fuel v.
Proof.
  intros Hfc Hc. destruct c as [|d]; simpl.
  - rewrite Vehicle_start_fuel. lia.
  - simpl in Hc. apply bool_decide_eq_true_1 in Hc.
    destruct (Z_le_gt_dec (d * fuel_consumption v) (fuel v)) as [H|H].
    + rewrite Vehicle_move_enough by exact H. simpl. nia.
    + rewrite Vehicle_move_short by exact H. simpl. lia.
Qed.

Lemma vehicle_step_stays_off v c :
  started v = false → fuel v <= 0 →
  0 <= fuel_consumption v → call_distance_nonneg c = true →
  started (vehicle_step v c) = false.
Proof.
  intros Hs Hf Hfc Hc. destruct c as [|d]; simpl.
  - rewrite Vehicle_start_cases, Hs.
    rewrite bool_decide_eq_false_2 by lia. exact Hs.
  - destruct (Z_le_gt_dec (d * fuel_consumption v) (fuel v)) as [H|H].
    + rewrite Vehicle_move_enough by exact H. exact Hs.
    + rewrite Vehicle_move_short by exact H. exact Hs.
Qed.

End vehicle_calls.





(** X3. [move] neither reads nor writes [started]: on a vehicle that was
    never started it does exactly what it does on a started one. *)
Theorem Vehicle_move_ignores_started (v : Vehicle) (d : Z) (b : bool) :
  Vehicle_move d (with_started b v)
  = (with_started b (after (Vehicle_move d v)), (Vehicle_move d v).2).
Proof.
  destruct (Z_le_gt_dec (d * fuel_consumption v) (fuel v)) as [H|H].
  - rewrite (Vehicle_move_enough v d H).
    rewrite Vehicle_move_enough by exact H. reflexivity.
  - rewrite (Vehicle_move_short v d H).
    rewrite Vehicle_move_short by exact H. reflexivity.
Qed.

(** X4. No sequence of [start] and [move] calls changes [weight] or
    [fuel_consumption], and none turns a started vehicle off. *)
Theorem vehicle_run_frame (cs : list vehicle_call) (v : Vehicle) :
  weight (vehicle_run cs v) = weight v
  ∧ fuel_consumption (vehicle_run cs v) = fuel_consumption v
  ∧ (started v = true → started (vehicle_run cs v) = true).
Proof.
  unfold vehicle_run. revert v.
  induction cs as [|c cs IH]; intros v; simpl; [tauto|].
  destruct (vehicle_step_frame v c) as (Hw & Hfc & Hs).
  destruct (IH (vehicle_step v c)) as (Hw' & Hfc' & Hs').
  rewrite Hw', Hfc', Hw, Hfc. repeat split. intros H. apply Hs', Hs, H.
Qed.

Lemma vehicle_run_frame_witness :
  started (vehicle_run [call_move 4; call_start; call_move 9]
             (mkVehicle 0 true 10 2)) = true.
Proof.
  apply (proj2 (proj2 (vehicle_run_frame [call_move 4; call_start; call_move 9]
                         (mkVehicle 0 true 10 2)))).
  reflexivity.
Defined.

(** X5. With a non-negative consumption rate and non-negative distances,
    the fuel never grows over a sequence of [start] and [move] calls. *)
Theorem vehicle_run_fuel_le (cs : list vehicle_call) (v : Vehicle) :
  0 <= fuel_consumption v → forallb call_distance_nonneg cs = true →
  fuel (vehicle_run cs v) <= fuel v.
Proof.
  unfold vehicle_run. revert v.
  induction cs as [|c cs IH]; intros v Hfc Hcs; simpl; [lia|].
  simpl in Hcs. apply andb_true_iff in Hcs as [Hc Hcs].
  pose proof (vehicle_step_fuel_le v c Hfc Hc) as Hstep.
  destruct (vehicle_step_frame v c) as (_ & Hfc' & _).
  assert (fuel (foldl vehicle_step (vehicle_step v c) cs)
          <= fuel (vehicle_step v c)) by (apply IH; [lia | exact Hcs]).
  lia.
Qed.

Lemma vehicle_run_fuel_le_witness :
  fuel (vehicle_run [call_start; call_move 4; call_move 2; call_move 0]
          (Vehicle_init 0 10 2)) <= fuel (Vehicle_init 0 10 2).
Proof. apply vehicle_run_fuel_le; [simpl; lia | reflexivity]. Defined.

(** X6. A vehicle that is not started and has no fuel stays not started
    through every sequence of [start] and [move] calls with non-negative
    distances (the consumption rate being non-negative); a negative
    distance is what lets it start: on [Vehicle(fuel=0, fuel_consumption=1)],
    [move(-5)] then [start()] returns with the vehicle started. *)
Theorem vehicle_without_fuel_stays_off (cs : list vehicle_call) (v : Vehicle) :
  (started v = false → fuel v <= 0 → 0 <= fuel_consumption v →
   forallb call_distance_nonneg cs = true →
   started (vehicle_run cs v) = false)
  ∧ Vehicle_start (after (Vehicle_move (-5) (Vehicle_init 0 0 1)))
    = (mkVehicle 0 true 5 1, Return tt).
Proof.
  split; [|reflexivity].
  unfold vehicle_run. revert v.
  induction cs as [|c cs IH]; intros v Hs Hf Hfc Hcs; simpl; [exact Hs|].
  simpl in Hcs. apply andb_true_iff in Hcs as [Hc Hcs].
  destruct (vehicle_step_frame v c) as (_ & Hfc' & _).
  pose proof (vehicle_step_fuel_le v c Hfc Hc).
  apply IH; [apply vehicle_step_stays_off; assumption | lia | lia | exact Hcs].
Qed.

Lemma vehicle_without_fuel_stays_off_witness :
  started (vehicle_run [call_start; call_move 3; call_start; call_move 0]
             (Vehicle_init 0 0 1)) = false.
Proof.
  apply (proj1 (vehicle_without_fuel_stays_off
                  [call_start; call_move 3; call_start; call_move 0]
                  (Vehicle_init 0 0 1)));
    [reflexivity | simpl; lia | simpl; lia | reflexivity].
Defined.



(** X8. After [remove_all_cargo()] the plane is empty: a second
    [remove_all_cargo()] returns 0 and changes nothing, and
    [load_cargo(amount)] returns exactly when [amount <= max_cargo]. *)
Theorem Plane_after_remove_all_cargo (p : Plane) (a : Z) :
  Plane_remove_all_cargo (after (Plane_remove_all_cargo p))
  = (after (Plane_remove_all_cargo p), Return 0)
  ∧ ((Plane_load_cargo a (after (Plane_remove_all_cargo p))).2 = Return tt
     ↔ a <= max_cargo p).
Proof.
  split; [reflexivity|].
  rewrite Plane_load_cargo_returns. simpl. lia.
Qed.

(** X9. A [load_cargo(amount)] that returned is undone by
    [remove_all_cargo()] only as far as the total goes: the call returns
    the old cargo plus [amount] and leaves the plane as it was but with
    [cargo = 0]. *)
Theorem Plane_load_then_remove (p : Plane) (a : Z) :
  (Plane_load_cargo a p).2 = Return tt →
  Plane_remove_all_cargo (after (Plane_load_cargo a p))
  = (with_cargo 0 p, Return (cargo p + a)).
Proof.
  intros H. apply Plane_load_cargo_returns in H.
  rewrite (Plane_load_cargo_fits p a H). reflexivity.
Qed.

Lemma Plane_load_then_remove_witness :
  Plane_remove_all_cargo (after (Plane_load_cargo 60 (Plane_init 0 0 0 100)))
  = (with_cargo 0 (Plane_init 0 0 0 100), Return (0 + 60)).
Proof. apply Plane_load_then_remove. reflexivity. Defined.

(** ** Fields of a split string *)

Section fields.
Implicit Types (s t suffix : string) (sep c : Ascii.ascii).

Lemma append_assoc s t u : (s +:+ t) +:+ u = s +:+ (t +:+ u).
Proof.
  induction s as [|c s IH]; [reflexivity|].
  change (String c ((s +:+ t) +:+ u) = String c (s +:+ (t +:+ u))).
  rewrite IH. reflexivity.
Qed.

Lemma split_without sep s : contains sep s = false → split sep s = [s].
Proof.
  induction s as [|c s IH]; cbn [contains split]; [reflexivity|].
  destruct (Ascii.eqb c sep); [discriminate|].
  intros H. rewrite (IH H). reflexivity.
Qed.

Lemma split_with sep s :
  contains sep s = true → ∃ w w' ws, split sep s = w :: w' :: ws.
Proof.
  induction s as [|c s IH]; cbn [contains split]; [discriminate|].
  destruct (Ascii.eqb c sep).
  - intros _. pose proof (split_nonempty sep s) as Hne.
    destruct (split sep s) as [|w ws]; [contradiction|]. eauto.
  - intros H. destruct (IH H) as (w & w' & ws & ->). eauto.
Qed.

Lemma split_last_cons sep c s :
  split_last sep (String c s)
  = if contains sep (String c s) then split_last sep s else String c s.
Proof.
  unfold split_last. cbn [contains split].
  destruct (Ascii.eqb c sep).
  - pose proof (split_nonempty sep s) as Hne.
    destruct (split sep s) as [|w ws]; [contradiction | reflexivity].
  - destruct (contains sep s) eqn:Hc.
    + destruct (split_with sep s Hc) as (w & w' & ws & ->). reflexivity.
    + rewrite (split_without sep s Hc). reflexivity.
Qed.

Lemma split_last_without sep s : contains sep s = false → split_last sep s = s.
Proof. intros H. unfold split_last. rewrite split_without by exact H. reflexivity. Qed.

Lemma split_first_without sep s : contains sep s = false → split_first sep s = s.
Proof. intros H. unfold split_first. rewrite split_without by exact H. reflexivity. Qed.

Lemma split_last_clean sep s : contains sep (split_last sep s) = false.
Proof.
  induction s as [|c s IH]; [reflexivity|].
  rewrite split_last_cons. destruct (contains sep (String c s)) eqn:Hc;
    [exact IH | exact Hc].
Qed.

Lemma split_first_clean sep s : contains sep (split_first sep s) = false.
Proof.
  induction s as [|c s IH]; [reflexivity|].
  rewrite split_first_cons. destruct (Ascii.eqb c sep) eqn:Hc; [reflexivity|].
  cbn [contains]. rewrite Hc. exact IH.
Qed.

Lemma contains_append sep s t :
  contains sep (s +:+ String sep t) = true.
Proof.
  induction s as [|c s IH].
  - change (contains sep (String sep t) = true). cbn [contains].
    rewrite Ascii.eqb_refl. reflexivity.
  - change (contains sep (String c (s +:+ String sep t)) = true).
    cbn [contains]. rewrite IH. destruct (Ascii.eqb c sep); reflexivity.
Qed.

Lemma split_last_append sep s t :
  split_last sep (s +:+ String sep t) = split_last sep t.
Proof.
  induction s as [|c s IH].
  - change (split_last sep (String sep t) = split_last sep t).
    rewrite split_last_cons. cbn [contains]. rewrite Ascii.eqb_refl.
    reflexivity.
  - change (split_last sep (String c (s +:+ String sep t)) = split_last sep t).
    rewrite split_last_cons.
    change (String c (s +:+ String sep t)) with (String c s +:+ String sep t).
    rewrite contains_append. exact IH.
Qed.

(** A suffix without the separator lies in the last field. *)
Lemma endswith_split_last sep s suffix :
  contains sep suffix = false →
  endswith (split_last sep s) suffix = endswith s suffix.
Proof.
  intros Hsuf. induction s as [|c s IH]; [reflexivity|].
  rewrite split_last_cons. destruct (contains sep (String c s)) eqn:Hc;
    [|reflexivity].
  rewrite IH. cbn [endswith].
  destruct (String.eqb_spec (String c s) suffix) as [<-|_]; [|reflexivity].
  congruence.
Qed.

Lemma endswith_any_split_last sep s (l : list string) :
  forallb (λ suffix, negb (contains sep suffix)) l = true →
  endswith_any (split_last sep s) l = endswith_any s l.
Proof.
  unfold endswith_any. induction l as [|x l IH]; [reflexivity|].
  cbn [forallb existsb]. intros [Hx Hl]%andb_true_iff.
  apply negb_true_iff in Hx.
  rewrite (endswith_split_last sep s x Hx), (IH Hl). reflexivity.
Qed.

Lemma split_first_twice sep s :
  split_first sep (split_first sep s) = split_first sep s.
Proof. apply split_first_without, split_first_clean. Qed.

Lemma has_suffix_append s t suffix :
  has_suffix t suffix → has_suffix (s +:+ t) suffix.
Proof.
  intros [stem ->]. exists (s +:+ stem). symmetry. apply append_assoc.
Qed.

End fields.

(** ** What the constructors do with their keywords *)

Section keywords.
Implicit Types (kw : gmap string pyval) (c : media_class) (k : string).

Lemma construct_eq c now n sz kw :
  construct c now n sz kw = subclass_init c now n sz kw.
Proof. destruct c; reflexivity. Qed.

Lemma known_keywords_key c kw k :
  known_keywords c kw = true → is_Some (kw !! k) →
  k ∈ (own_keys c ++ base_keys)%list.
Proof.
  unfold known_keywords. intros Hall [v Hv].
  rewrite forallb_forall in Hall.
  specialize (Hall (k, v)). simpl in Hall.
  eapply bool_decide_eq_true_1, Hall, list_elem_of_In, elem_of_map_to_list, Hv.
Qed.

Lemma forallb_false {A} (f : A → bool) (l : list A) :
  forallb f l = false → ∃ x, In x l ∧ f x = false.
Proof.
  induction l as [|x l IH]; cbn [forallb]; [discriminate|].
  destruct (f x) eqn:Hx.
  - intros H. destruct (IH H) as (y & Hy & Hfy). exists y. split; [right|]; assumption.
  - intros _. exists x. split; [left; reflexivity | exact Hx].
Qed.

Lemma unknown_keyword c kw :
  known_keywords c kw = false →
  ∃ k, is_Some (kw !! k) ∧ k ∉ (own_keys c ++ base_keys)%list.
Proof.
  unfold known_keywords. intros H.
  destruct (forallb_false _ _ H) as ([k v] & Hin & Hk).
  apply list_elem_of_In, elem_of_map_to_list in Hin.
  exists k. split; [rewrite Hin; eauto|].
  simpl in Hk. eapply bool_decide_eq_false_1, Hk.
Qed.

Lemma subclass_init_unexpected c now n sz kw k :
  is_Some (kw !! k) → k ∉ (own_keys c ++ base_keys)%list →
  subclass_init c now n sz kw = Raise TypeError.
Proof.
  intros Hk Hno. unfold subclass_init, bind_keywords at 1.
  destruct (existsb _ _); [reflexivity|].
  cbn [orb mbind outcome_bind]. unfold MediaFile_init.
  rewrite (bind_keywords_unexpected _ _ _ k); [reflexivity| |].
  - rewrite lookup_foldr_delete, bool_decide_eq_false_2; [exact Hk|].
    intros Hin. apply Hno, elem_of_app. left. exact Hin.
  - intros Hin. apply Hno, elem_of_app. right. exact Hin.
Qed.

(** With known keywords only the [metadata] value can still fail. *)
Lemma subclass_init_known c now n sz kw :
  known_keywords c kw = true →
  subclass_init c now n sz kw
  = (md ← dict_update (py_or (keyword kw "metadata") (VDict ∅))
            (own_fields c kw);
     mret (mkMediaFile c n sz
             (py_or (keyword kw "created_at") (VDatetime now))
             (keyword kw "owner") md)).
Proof.
  intros Hknown. unfold subclass_init.
  assert (Habs : ∀ k, bool_decide (k ∈ (own_keys c ++ base_keys)%list) = false
                      → kw !! k = None).
  { intros k Hk. destruct (kw !! k) eqn:E; [|reflexivity].
    apply bool_decide_eq_false_1 in Hk. destruct Hk.
    apply (known_keywords_key c kw k Hknown). rewrite E. eauto. }
  rewrite (bind_keywords_ok _ _ true kw); [|..|left; reflexivity].
  2:{ intros k Hk. apply Habs. destruct c;
        repeat (apply elem_of_cons in Hk as [->|Hk]; [reflexivity|]);
        apply not_elem_of_nil in Hk; destruct Hk. }
  cbn [mbind outcome_bind]. unfold MediaFile_init.
  rewrite (bind_keywords_ok _ _ false).
  - assert (Hkeep : ∀ k, bool_decide (k ∈ own_keys c) = false →
              keyword (foldr delete kw (own_keys c)) k = keyword kw k).
    { intros k Hk. unfold keyword. rewrite lookup_foldr_delete, Hk.
      reflexivity. }
    cbn [mbind outcome_bind mret outcome_ret a_metadata a_name a_size
         a_created_at a_owner].
    rewrite !Hkeep by (destruct c; reflexivity). reflexivity.
  - intros k Hk. rewrite lookup_foldr_delete.
    case_bool_decide; [reflexivity|]. apply Habs. destruct c;
      repeat (apply elem_of_cons in Hk as [->|Hk]; [reflexivity|]);
      apply not_elem_of_nil in Hk; destruct Hk.
  - right. intros k. rewrite lookup_foldr_delete.
    case_bool_decide as Hown; [intros [? ?]; discriminate|].
    intros Hk. pose proof (known_keywords_key c kw k Hknown Hk) as Hin.
    apply elem_of_app in Hin as [Hin|Hin]; [contradiction | exact Hin].
Qed.

Lemma dict_update_not_dict (v : pyval) (d : gmap string pyval) :
  dictish v = false → dict_update (py_or v (VDict ∅)) d = Raise AttributeError.
Proof.
  unfold py_or. destruct v; simpl; intros H;
    try discriminate; try reflexivity;
    apply negb_false_iff in H; rewrite ?H; simpl in H; rewrite ?H; reflexivity.
Qed.

Lemma as_dict_or_empty (d : gmap string pyval) :
  as_dict (py_or (VDict d) (VDict ∅)) = d.
Proof.
  unfold py_or. simpl. destruct (Nat.eqb_spec (base.size d) 0) as [H|H]; simpl.
  - symmetry. apply map_size_empty_iff, H.
  - reflexivity.
Qed.

(** A constructor returns only for keywords it accepts. *)
Lemma subclass_init_returns c now n sz kw m :
  subclass_init c now n sz kw = Return m → accepts_fields c kw = true.
Proof.
  intros H. unfold accepts_fields. fold (known_keywords c kw).
  destruct (known_keywords c kw) eqn:Hk.
  - rewrite (subclass_init_known _ _ _ _ _ Hk) in H.
    destruct (dictish (keyword kw "metadata")) eqn:Hd; [reflexivity|].
    rewrite (dict_update_not_dict _ _ Hd) in H. discriminate H.
  - destruct (unknown_keyword c kw Hk) as (k & Hsome & Hno).
    rewrite (subclass_init_unexpected _ _ _ _ _ k Hsome Hno) in H.
    discriminate H.
Qed.

Lemma subclass_init_inv c now n sz kw m :
  subclass_init c now n sz kw = Return m →
  m = mkMediaFile c n sz
        (py_or (keyword kw "created_at") (VDatetime now))
        (keyword kw "owner")
        (own_fields c kw ∪ as_dict (py_or (keyword kw "metadata") (VDict ∅))).
Proof.
  intros H. pose proof (subclass_init_returns _ _ _ _ _ _ H) as Hacc.
  rewrite (subclass_init_accepts _ _ _ _ _ Hacc) in H. congruence.
Qed.

Lemma subclass_init_own_keys c now n sz kw m :
  subclass_init c now n sz kw = Return m → has_own_keys m.
Proof.
  intros H%subclass_init_inv. subst m. intros k Hk. simpl in *.
  exists (keyword kw k). apply lookup_union_Some_l.
  rewrite lookup_own_fields, bool_decide_eq_true_2 by exact Hk. reflexivity.
Qed.

End keywords.

(** X10. A constructor ([AudioFile], [VideoFile] or [PhotoFile]) raises
    [TypeError] when some keyword is not one of its parameters (its four
    fields, [created_at], [owner], [metadata]); with known keywords it
    raises [AttributeError] when [metadata=] is a truthy value that is not
    a dict; otherwise it returns a file of its class with the given name
    and size, the [owner=] given ([None] by default) and the [created_at=]
    given if truthy, else the clock. *)
Theorem construct_outcome (c : media_class) (now : Z) (n : string) (sz : Z)
    (kw : gmap string pyval) :
  (known_keywords c kw = false → construct c now n sz kw = Raise TypeError)
  ∧ (known_keywords c kw = true → dictish (keyword kw "metadata") = false →
     construct c now n sz kw = Raise AttributeError)
  ∧ (known_keywords c kw = true → dictish (keyword kw "metadata") = true →
     ∃ m, construct c now n sz kw = Return m
          ∧ class_of m = c ∧ name m = n ∧ size m = sz
          ∧ owner m = keyword kw "owner"
          ∧ created_at m = py_or (keyword kw "created_at") (VDatetime now)).
Proof.
  rewrite construct_eq. split; [|split].
  - intros Hk. destruct (unknown_keyword c kw Hk) as (k & Hsome & Hno).
    apply (subclass_init_unexpected _ _ _ _ _ k Hsome Hno).
  - intros Hk Hd. rewrite (subclass_init_known _ _ _ _ _ Hk).
    rewrite (dict_update_not_dict _ _ Hd). reflexivity.
  - intros Hk Hd. rewrite subclass_init_accepts.
    + eexists. repeat split.
    + unfold accepts_fields. fold (known_keywords c kw). rewrite Hk, Hd.
      reflexivity.
Qed.

Lemma construct_outcome_witness :
  construct AudioFile 0 "a.mp3" 1 {["genre" := VStr "Rock"]} = Raise TypeError
  ∧ construct VideoFile 0 "a.mp4" 1 {["metadata" := VInt 5]}
    = Raise AttributeError
  ∧ ∃ m, construct PhotoFile 0 "a.jpg" 1 {["owner" := VStr "Bob"]} = Return m
         ∧ class_of m = PhotoFile ∧ name m = "a.jpg" ∧ size m = 1
         ∧ owner m = keyword {["owner" := VStr "Bob"]} "owner"
         ∧ created_at m
           = py_or (keyword {["owner" := VStr "Bob"]} "created_at")
                   (VDatetime 0).
Proof.
  split; [|split].
  - apply (proj1 (construct_outcome AudioFile 0 "a.mp3" 1
                    {["genre" := VStr "Rock"]})).
    reflexivity.
  - apply (proj1 (proj2 (construct_outcome VideoFile 0 "a.mp4" 1
                           {["metadata" := VInt 5]})));
      reflexivity.
  - apply (proj2 (proj2 (construct_outcome PhotoFile 0 "a.jpg" 1
                           {["owner" := VStr "Bob"]})));
      reflexivity.
Defined.

(** X11. The four fields of the class always win over [metadata=]: in the
    file a constructor returns, each key of the class maps to the value of
    its keyword, [None] when the keyword was not given, whatever the
    [metadata=] dict held under that key; every other key maps to what
    the [metadata=] dict held. *)
Theorem constructor_fields_override (c : media_class) (now : Z) (n : string)
    (sz : Z) (kw d : gmap string pyval) (m : MediaFile) :
  kw !! "metadata" = Some (VDict d) →
  construct c now n sz kw = Return m →
  (∀ k, k ∈ own_keys c → metadata m !! k = Some (keyword kw k))
  ∧ (∀ k, k ∉ own_keys c → metadata m !! k = d !! k).
Proof.
  intros Hmd H. rewrite construct_eq in H. apply subclass_init_inv in H.
  subst m. cbn [metadata].
  assert (keyword kw "metadata" = VDict d) as ->
    by (unfold keyword; rewrite Hmd; reflexivity).
  rewrite as_dict_or_empty. split; intros k Hk.
  - apply lookup_union_Some_l.
    rewrite lookup_own_fields, bool_decide_eq_true_2 by exact Hk. reflexivity.
  - apply lookup_union_r.
    rewrite lookup_own_fields, bool_decide_eq_false_2 by exact Hk. reflexivity.
Qed.

Lemma constructor_fields_override_witness :
  ∃ m, construct AudioFile 0 "a.mp3" 1
         {["metadata" := VDict (<["duration" := VInt 7]>
                                  {["genre" := VStr "Rock"]})]} = Return m
       ∧ metadata m !! "duration" = Some VNone
       ∧ metadata m !! "genre" = Some (VStr "Rock").
Proof.
  eexists. split; [reflexivity|].
  edestruct (constructor_fields_override AudioFile 0 "a.mp3" 1
               {["metadata" := VDict (<["duration" := VInt 7]>
                                        {["genre" := VStr "Rock"]})]}
               (<["duration" := VInt 7]> {["genre" := VStr "Rock"]}))
    as [Hown Hother]; [reflexivity | reflexivity |].
  split.
  - apply (Hown "duration"). repeat constructor.
  - rewrite (Hother "genre"); [reflexivity|].
    vm_compute. intros H.
    repeat (apply elem_of_cons in H as [H|H]; [discriminate|]).
    apply not_elem_of_nil in H. destruct H.
Defined.

(** ** Files made by the code *)

Section made.
Implicit Types (m r : MediaFile) (now sz : Z) (path fmt : string)
  (kw d : gmap string pyval).

Lemma with_metadata_same m : with_metadata (metadata m) m = m.
Proof. destruct m; reflexivity. Qed.


Lemma PhotoFile_resize_cases now (w h : Z) m :
  PhotoFile_resize now w h m
  = (m, subclass_init PhotoFile now
          (split_first "."%char (name m) +:+ "_resized." +:+
           split_last "."%char (name m))
          (size m) (<["width" := VInt w]> (<["height" := VInt h]> ∅))).
Proof. reflexivity. Qed.

Lemma VideoFile_extract_frame_cases now (ts : string) m :
  VideoFile_extract_frame now ts m
  = (m, subclass_init PhotoFile now
          (split_first "."%char (name m) +:+ "_" +:+ ts +:+ ".jpg")
          100000 (<["width" := VInt 1920]> (<["height" := VInt 1080]> ∅))).
Proof. reflexivity. Qed.

(** What [load] returns, when it returns. *)
Lemma load_inv (st : Storage) now path m :
  load st now path = Return m →
  ∃ c sz, m = mkMediaFile c (split_last "/"%char path) sz (VDatetime now)
                VNone (own_fields c ∅).
Proof.
  rewrite load_any_storage, LocalStorage_load_cases.
  destruct (endswith_any path [".mp3"; ".wav"; ".flac"]);
    [|destruct (endswith_any path [".mp4"; ".avi"; ".mov"]);
      [|destruct (endswith_any path [".jpg"; ".png"; ".gif"]);
        [|discriminate]]];
    rewrite subclass_init_accepts by reflexivity;
    intros [= <-]; eexists _, _;
    unfold keyword; rewrite !lookup_empty; unfold py_or;
    cbn [default truthy as_dict]; rewrite (right_id_L ∅ (∪)); reflexivity.
Qed.

Lemma own_fields_empty_plain (c : media_class) :
  dom (own_fields c ∅) = list_to_set (own_keys c).
Proof. destruct c; reflexivity. Qed.

Lemma create_from_path_own_keys now path sz kw m :
  create_from_path now path sz kw = Return m → has_own_keys m.
Proof.
  unfold create_from_path.
  destruct (bind_keywords ["path"; "size"] [] true kw) as [kwargs|e];
    cbn [mbind outcome_bind]; [|discriminate].
  destruct (endswith_any path [".mp3"; ".wav"; ".flac"]);
    [apply (subclass_init_own_keys AudioFile)|].
  destruct (endswith_any path [".mp4"; ".avi"; ".mov"]);
    [apply (subclass_init_own_keys VideoFile)|].
  destruct (endswith_any path [".jpg"; ".png"; ".gif"]);
    [apply (subclass_init_own_keys PhotoFile)|discriminate].
Qed.

Lemma plain_lookup_base m k :
  plain m → k ∈ base_keys → metadata m !! k = None.
Proof.
  intros Hp Hk. destruct (metadata m !! k) eqn:E; [|reflexivity].
  assert (Hin : k ∈ own_keys (class_of m)).
  { apply (elem_of_list_to_set (C := gset string)). rewrite <- Hp.
    apply elem_of_dom. rewrite E. eauto. }
  unfold base_keys in Hk.
  repeat (apply elem_of_cons in Hk as [->|Hk];
          [destruct (class_of m); vm_compute in Hin;
           repeat (apply elem_of_cons in Hin as [Hin|Hin]; [discriminate|]);
           apply not_elem_of_nil in Hin; destruct Hin|]).
  apply not_elem_of_nil in Hk. destruct Hk.
Qed.

End made.

(** X12. Every file the code makes has all four keys of its class in its
    metadata: the files returned by the constructors, by [load], by
    [create_from_path], by [convert], by [resize] and by [extract_frame];
    and [update_metadata] keeps them there. *)
Theorem made_files_have_own_keys :
  (∀ c now n sz kw m, construct c now n sz kw = Return m → has_own_keys m)
  ∧ (∀ st now path m, load st now path = Return m → has_own_keys m)
  ∧ (∀ now path sz kw m,
       create_from_path now path sz kw = Return m → has_own_keys m)
  ∧ (∀ now fmt m r, (convert now fmt m).2 = Return r → has_own_keys r)
  ∧ (∀ now w h m r,
       (PhotoFile_resize now w h m).2 = Return r → has_own_keys r)
  ∧ (∀ now ts m r,
       (VideoFile_extract_frame now ts m).2 = Return r → has_own_keys r)
  ∧ (∀ d m, has_own_keys m →
       has_own_keys (after (MediaFile_update_metadata d m))).
Proof.
  repeat split.
  - intros c now n sz kw m. rewrite construct_eq.
    apply subclass_init_own_keys.
  - intros st now path m.
    rewrite load_any_storage, LocalStorage_load_cases.
    destruct (endswith_any path [".mp3"; ".wav"; ".flac"]);
      [apply subclass_init_own_keys|].
    destruct (endswith_any path [".mp4"; ".avi"; ".mov"]);
      [apply subclass_init_own_keys|].
    destruct (endswith_any path [".jpg"; ".png"; ".gif"]);
      [apply subclass_init_own_keys | discriminate].
  - intros now path sz kw m. apply create_from_path_own_keys.
  - intros now fmt m r. rewrite convert_cases. apply subclass_init_own_keys.
  - intros now w h m r. rewrite PhotoFile_resize_cases.
    apply subclass_init_own_keys.
  - intros now ts m r. rewrite VideoFile_extract_frame_cases.
    apply subclass_init_own_keys.
  - intros d m Hm k Hk. simpl in *. destruct (Hm k Hk) as [v Hv].
    destruct (d !! k) as [v'|] eqn:Hd.
    + exists v'. apply lookup_union_Some_l, Hd.
    + exists v. rewrite lookup_union_r by exact Hd. exact Hv.
Qed.

Lemma made_files_have_own_keys_witness :
  has_own_keys
    (mkMediaFile PhotoFile "a.jpg" 1 (VDatetime 0) VNone
       (<["width" := VNone]> (<["height" := VNone]>
         (<["color_space" := VNone]> {["camera_model" := VNone]}))))
  ∧ has_own_keys
      (after (MediaFile_update_metadata main_genre
         (mkMediaFile PhotoFile "a.jpg" 1 (VDatetime 0) VNone
            (<["width" := VNone]> (<["height" := VNone]>
              (<["color_space" := VNone]> {["camera_model" := VNone]})))))).
Proof.
  assert (H : has_own_keys
    (mkMediaFile PhotoFile "a.jpg" 1 (VDatetime 0) VNone
       (<["width" := VNone]> (<["height" := VNone]>
         (<["color_space" := VNone]> {["camera_model" := VNone]}))))).
  { apply (proj1 made_files_have_own_keys PhotoFile 0 "a.jpg" 1 ∅).
    reflexivity. }
  split; [exact H|].
  apply (proj2 (proj2 (proj2 (proj2 (proj2 (proj2
           made_files_have_own_keys)))))).
  exact H.
Defined.

(** X13. [update_metadata] composes by merging its arguments: updating
    with [d1] and then with [d2] is updating once with [d2] merged over
    [d1]; updating with an empty dict changes nothing; updating twice with
    the same dict is updating once. *)
Theorem update_metadata_compose (m : MediaFile) (d d1 d2 : gmap string pyval) :
  MediaFile_update_metadata d2 (after (MediaFile_update_metadata d1 m))
  = MediaFile_update_metadata (d2 ∪ d1) m
  ∧ MediaFile_update_metadata ∅ m = (m, Return tt)
  ∧ MediaFile_update_metadata d (after (MediaFile_update_metadata d m))
    = MediaFile_update_metadata d m.
Proof.
  unfold MediaFile_update_metadata, mbind, Py_bind, get_self, set_self, after,
    with_metadata.
  cbn [fst snd class_of name size created_at owner metadata].
  split; [|split].
  - rewrite (assoc_L (∪)). reflexivity.
  - rewrite (left_id_L ∅ (∪)). destruct m; reflexivity.
  - rewrite (assoc_L (∪)), (idemp_L (∪)). reflexivity.
Qed.

(** X14. After an [update_metadata] with a key that is not a parameter of
    the file's constructor, [convert] raises [TypeError], whatever the
    target format, and leaves the file as the update left it. *)
Theorem update_then_convert_raises (m : MediaFile) (d : gmap string pyval)
    (now : Z) (fmt : string) :
  known_keywords (class_of m) d = false →
  convert now fmt (after (MediaFile_update_metadata d m))
  = (after (MediaFile_update_metadata d m), Raise TypeError).
Proof.
  intros Hd. destruct (unknown_keyword _ _ Hd) as (k & [v Hk] & Hno).
  apply (convert_unexpected_key _ _ _ k); [|exact Hno].
  exists v. simpl. apply lookup_union_Some_l, Hk.
Qed.

Lemma update_then_convert_raises_witness :
  convert 0 "png"
    (after (MediaFile_update_metadata {["place" := VStr "Oslo"]}
       (mkMediaFile PhotoFile "a.jpg" 1 (VDatetime 0) VNone
          (own_fields PhotoFile ∅))))
  = (after (MediaFile_update_metadata {["place" := VStr "Oslo"]}
       (mkMediaFile PhotoFile "a.jpg" 1 (VDatetime 0) VNone
          (own_fields PhotoFile ∅))),
     Raise TypeError).
Proof. apply update_then_convert_raises. reflexivity. Defined.



(** X16. A metadata entry named ["owner"] is taken by the constructor as
    its [owner=] parameter: converting a plain file after
    [update_metadata({"owner": v})] returns a file whose owner is [v] and
    whose metadata is the metadata from before the update, without the
    ["owner"] entry. *)
Theorem convert_consumes_owner (m : MediaFile) (v : pyval) (now : Z)
    (fmt : string) :
  plain m →
  ∃ r, (convert now fmt
          (after (MediaFile_update_metadata {["owner" := v]} m))).2 = Return r
       ∧ owner r = v
       ∧ metadata r = metadata m
       ∧ metadata r !! "owner" = None.
Proof.
  intros Hp. rewrite convert_cases. cbn [snd].
  set (md := metadata (after (MediaFile_update_metadata {["owner" := v]} m))).
  assert (Hmd : md = <["owner" := v]> (metadata m)).
  { unfold md. simpl. rewrite <- insert_union_singleton_l. reflexivity. }
  assert (Howner : metadata m !! "owner" = None)
    by (apply plain_lookup_base; [exact Hp | repeat constructor]).
  assert (Hmeta : metadata m !! "metadata" = None)
    by (apply plain_lookup_base; [exact Hp | repeat constructor]).
  assert (Hacc : accepts_fields (class_of m) md = true).
  { unfold accepts_fields. apply andb_true_iff. split.
    - apply forallb_forall. intros [k x] Hkx%list_elem_of_In%elem_of_map_to_list.
      apply bool_decide_eq_true_2. simpl. rewrite Hmd in Hkx.
      destruct (decide (k = "owner")) as [->|Hne].
      + apply elem_of_app. right. repeat constructor.
      + rewrite lookup_insert_ne in Hkx by congruence.
        apply elem_of_app. left.
        apply (elem_of_list_to_set (C := gset string)). rewrite <- Hp.
        apply elem_of_dom. rewrite Hkx. eauto.
    - unfold keyword. rewrite Hmd, lookup_insert_ne, Hmeta by discriminate.
      reflexivity. }
  change (class_of (after (MediaFile_update_metadata {["owner" := v]} m)))
    with (class_of m).
  rewrite (subclass_init_accepts _ _ _ _ _ Hacc).
  eexists. split; [reflexivity|]. cbn [owner metadata].
  assert (Hk : keyword md "metadata" = VNone).
  { unfold keyword. rewrite Hmd, lookup_insert_ne, Hmeta by discriminate.
    reflexivity. }
  assert (Hfields : own_fields (class_of m) md = metadata m).
  { etrans; [|apply (own_fields_id (class_of m) (metadata m) Hp)].
    apply map_eq. intros k. rewrite !lookup_own_fields.
    case_bool_decide as Hin; [|reflexivity].
    unfold keyword. rewrite Hmd, lookup_insert_ne; [reflexivity|].
    intros <-. assert (is_Some (metadata m !! "owner")) as [? Hs].
    { apply elem_of_dom. rewrite Hp. apply elem_of_list_to_set, Hin. }
    congruence. }
  rewrite Hk, Hfields. unfold py_or. cbn [truthy as_dict].
  rewrite (right_id_L ∅ (∪)).
  split; [|split; [reflexivity | exact Howner]].
  unfold keyword. rewrite Hmd, lookup_insert_eq. reflexivity.
Qed.

Lemma convert_consumes_owner_witness :
  ∃ r, (convert 0 "png"
          (after (MediaFile_update_metadata {["owner" := VStr "Bob"]}
             (mkMediaFile PhotoFile "a.jpg" 1 (VDatetime 0) VNone
                (own_fields PhotoFile ∅))))).2 = Return r
       ∧ owner r = VStr "Bob"
       ∧ metadata r = own_fields PhotoFile ∅
       ∧ metadata r !! "owner" = None.
Proof.
  apply (convert_consumes_owner
           (mkMediaFile PhotoFile "a.jpg" 1 (VDatetime 0) VNone
              (own_fields PhotoFile ∅))).
  reflexivity.
Defined.

(** ** Names across conversions, resizing and loading *)

Section names.
Implicit Types (m r : MediaFile) (now sz : Z) (path fmt stem ext : string).

Lemma convert_plain_result now fmt m :
  plain m →
  plain (mkMediaFile (class_of m)
           (split_first "."%char (name m) +:+ "." +:+ fmt)
           (size m) (VDatetime now) VNone (metadata m)).
Proof. intros H. exact H. Qed.

Lemma converted_stem (n fmt : string) :
  split_first "."%char (split_first "."%char n +:+ "." +:+ fmt)
  = split_first "."%char n.
Proof.
  change ("." +:+ fmt) with (String "."%char fmt).
  apply split_first_stem, split_first_twice.
Qed.

Lemma dotted_stem stem ext :
  contains "."%char stem = false →
  split_first "."%char (stem +:+ "." +:+ ext) = stem.
Proof.
  intros H. change ("." +:+ ext) with (String "."%char ext).
  apply split_first_stem, split_first_without, H.
Qed.

Lemma dotted_ext stem ext :
  contains "."%char ext = false →
  split_last "."%char (stem +:+ "." +:+ ext) = ext.
Proof.
  intros H. change ("." +:+ ext) with (String "."%char ext).
  rewrite split_last_append. apply split_last_without, H.
Qed.

Lemma load_basename (st : Storage) now path m :
  load st now path = Return m →
  load st now (split_last "/"%char path) = Return m.
Proof.
  rewrite !load_any_storage, !LocalStorage_load_cases.
  rewrite !(endswith_any_split_last "/"%char path) by reflexivity.
  rewrite (split_last_without "/"%char (split_last "/"%char path))
    by apply split_last_clean.
  destruct (endswith_any path [".mp3"; ".wav"; ".flac"]); [tauto|].
  destruct (endswith_any path [".mp4"; ".avi"; ".mov"]); [tauto|].
  destruct (endswith_any path [".jpg"; ".png"; ".gif"]); [tauto|discriminate].
Qed.

End names.

(** X17. Converting there and back restores the name: for a file whose
    metadata holds exactly the keys of its class and whose name is
    [stem.ext] with no dot in the stem, [convert(fmt)] followed by
    [convert(ext)] on the result returns a file with the original name,
    class, size and metadata. *)
Theorem convert_round_trip (m : MediaFile) (stem ext fmt : string)
    (now1 now2 : Z) :
  plain m → name m = stem +:+ "." +:+ ext → contains "."%char stem = false →
  ∃ r1 r2, (convert now1 fmt m).2 = Return r1
           ∧ (convert now2 ext r1).2 = Return r2
           ∧ name r1 = stem +:+ "." +:+ fmt
           ∧ name r2 = name m ∧ class_of r2 = class_of m
           ∧ size r2 = size m ∧ metadata r2 = metadata m.
Proof.
  intros Hp Hn Hstem.
  rewrite (convert_plain now1 fmt m Hp).
  eexists. eexists. split; [reflexivity|].
  rewrite convert_plain by (apply convert_plain_result, Hp).
  split; [reflexivity|].
  cbn [name class_of size metadata]. rewrite Hn.
  rewrite !dotted_stem by exact Hstem. repeat split.
Qed.

Lemma convert_round_trip_witness :
  ∃ r1 r2,
    (convert 1 "wav"
       (mkMediaFile AudioFile "song.mp3" 5 (VDatetime 0) VNone
          (own_fields AudioFile ∅))).2 = Return r1
    ∧ (convert 2 "mp3" r1).2 = Return r2
    ∧ name r1 = "song" +:+ "." +:+ "wav"
    ∧ name r2 = "song.mp3" ∧ class_of r2 = AudioFile
    ∧ size r2 = 5 ∧ metadata r2 = own_fields AudioFile ∅.
Proof.
  apply (convert_round_trip
           (mkMediaFile AudioFile "song.mp3" 5 (VDatetime 0) VNone
              (own_fields AudioFile ∅)) "song" "mp3" "wav" 1 2);
    reflexivity.
Defined.

(** X18. Only the last conversion counts: for a file whose metadata holds
    exactly the keys of its class, converting the result of a first
    conversion returns what converting the original would return,
    whatever the first target format. *)
Theorem convert_twice (m r1 : MediaFile) (f1 f2 : string) (now1 now2 : Z) :
  plain m → (convert now1 f1 m).2 = Return r1 →
  (convert now2 f2 r1).2 = (convert now2 f2 m).2.
Proof.
  intros Hp H1. rewrite (convert_plain now1 f1 m Hp) in H1.
  injection H1 as <-.
  rewrite (convert_plain now2 f2 m Hp).
  rewrite convert_plain by exact Hp.
  cbn [snd name class_of size metadata]. rewrite converted_stem. reflexivity.
Qed.

Lemma convert_twice_witness :
  (convert 2 "flac"
     (mkMediaFile AudioFile "my.wav" 5 (VDatetime 1) VNone
        (own_fields AudioFile ∅))).2
  = (convert 2 "flac"
       (mkMediaFile AudioFile "my.song.mp3" 5 (VDatetime 0) (VStr "John")
          (own_fields AudioFile ∅))).2.
Proof.
  apply (convert_twice
           (mkMediaFile AudioFile "my.song.mp3" 5 (VDatetime 0) (VStr "John")
              (own_fields AudioFile ∅)) _ "wav" "flac" 1 2);
    reflexivity.
Defined.

(** X19. [resize] never raises, whatever the file's metadata, and leaves
    the file untouched.  The photo it returns has the file's size and the
    new width and height, but nothing else of the file's metadata:
    [color_space] and [camera_model] are [None], no further key is there,
    and the owner is [None]. *)
Theorem PhotoFile_resize_outcome (now w h : Z) (m : MediaFile) :
  ∃ r, PhotoFile_resize now w h m = (m, Return r)
       ∧ class_of r = PhotoFile ∧ size r = size m ∧ owner r = VNone
       ∧ created_at r = VDatetime now
       ∧ metadata r
         = <["width" := VInt w]> (<["height" := VInt h]>
             (<["color_space" := VNone]> {["camera_model" := VNone]})).
Proof.
  rewrite PhotoFile_resize_cases.
  rewrite subclass_init_accepts by reflexivity.
  eexists. split; [reflexivity|]. repeat split.
Qed.

(** X20. The name [resize] gives: the part of the old name before its
    first dot, [_resized.], and the part after its last dot.  For
    [stem.ext] without further dots that is [stem_resized.ext]; for a name
    without any dot it is the whole name on both sides; and a name ending
    in [.jpg], [.png] or [.gif] keeps that ending. *)
Theorem PhotoFile_resize_name (now w h : Z) (m r : MediaFile) :
  (PhotoFile_resize now w h m).2 = Return r →
  (∀ stem ext, name m = stem +:+ "." +:+ ext →
     contains "."%char stem = false → contains "."%char ext = false →
     name r = stem +:+ "_resized." +:+ ext)
  ∧ (contains "."%char (name m) = false →
     name r = name m +:+ "_resized." +:+ name m)
  ∧ (photo_path (name m) → photo_path (name r)).
Proof.
  intros H. rewrite PhotoFile_resize_cases in H. cbn [snd] in H.
  apply subclass_init_inv in H. subst r. cbn [name].
  split; [|split].
  - intros stem ext -> Hs He.
    rewrite dotted_stem by exact Hs. rewrite dotted_ext by exact He.
    reflexivity.
  - intros Hn. rewrite split_first_without, split_last_without by exact Hn.
    reflexivity.
  - intros Hp.
    assert (Hkeep : ∀ ext, contains "."%char ext = false →
              has_suffix (name m) ("." +:+ ext) →
              has_suffix (split_first "."%char (name m) +:+ "_resized." +:+
                          split_last "."%char (name m)) ("." +:+ ext)).
    { intros ext He [stem Hstem]. rewrite Hstem at 2.
      rewrite dotted_ext by exact He.
      apply has_suffix_append. exists "_resized". reflexivity. }
    destruct Hp as [Hp|[Hp|Hp]].
    + left. apply (Hkeep "jpg"); [reflexivity | exact Hp].
    + right; left. apply (Hkeep "png"); [reflexivity | exact Hp].
    + right; right. apply (Hkeep "gif"); [reflexivity | exact Hp].
Qed.

Lemma PhotoFile_resize_name_witness :
  ∃ r, (PhotoFile_resize 0 800 600
          (mkMediaFile PhotoFile "image.jpg" 5 (VDatetime 0) VNone
             (own_fields PhotoFile ∅))).2 = Return r
       ∧ name r = "image" +:+ "_resized." +:+ "jpg"
       ∧ photo_path (name r).
Proof.
  eexists. split; [reflexivity|].
  edestruct (PhotoFile_resize_name 0 800 600
               (mkMediaFile PhotoFile "image.jpg" 5 (VDatetime 0) VNone
                  (own_fields PhotoFile ∅)))
    as (Hdot & _ & Hphoto); [reflexivity|].
  split.
  - apply (Hdot "image" "jpg"); reflexivity.
  - apply Hphoto. left. exists "image". reflexivity.
Defined.

(** X21. [extract_frame] never raises and leaves the video untouched.
    The frame is a photo of size 100000, 1920 by 1080, whose name ends in
    [.jpg] whatever the video's name and the timestamp, so that every
    storage loads that name as a photo. *)
Theorem VideoFile_extract_frame_outcome (now now' : Z) (ts : string)
    (m : MediaFile) (st : Storage) :
  ∃ r, VideoFile_extract_frame now ts m = (m, Return r)
       ∧ class_of r = PhotoFile ∧ size r = 100000
       ∧ metadata r !! "width" = Some (VInt 1920)
       ∧ metadata r !! "height" = Some (VInt 1080)
       ∧ name r = split_first "."%char (name m) +:+ "_" +:+ ts +:+ ".jpg"
       ∧ has_suffix (name r) ".jpg"
       ∧ returned_class (load st now' (name r)) = Some PhotoFile.
Proof.
  rewrite VideoFile_extract_frame_cases.
  rewrite subclass_init_accepts by reflexivity.
  eexists. split; [reflexivity|]. cbn [class_of size name metadata].
  assert (Hjpg : has_suffix
            (split_first "."%char (name m) +:+ "_" +:+ ts +:+ ".jpg") ".jpg").
  { do 2 apply has_suffix_append. exists ts. reflexivity. }
  repeat split; try exact Hjpg.
  assert (Hphoto : photo_path
            (split_first "."%char (name m) +:+ "_" +:+ ts +:+ ".jpg"))
    by (left; exact Hjpg).
  rewrite load_any_storage, LocalStorage_load_cases.
  rewrite (photo_not_audio _ Hphoto), (photo_not_video _ Hphoto).
  rewrite (proj1 (photo_path_test _) Hphoto).
  rewrite subclass_init_accepts by reflexivity. reflexivity.
Qed.

(** X22. A loaded file can be loaded again by its name: when [load]
    returns a file for a path, every storage's [load] of that file's name
    (the path's last component) returns the same file. *)
Theorem load_by_name (st st' : Storage) (now : Z) (path : string)
    (m : MediaFile) :
  load st now path = Return m →
  name m = split_last "/"%char path
  ∧ load st' now (name m) = Return m.
Proof.
  intros H. destruct (load_inv _ _ _ _ H) as (c & sz & Hm).
  assert (Hn : name m = split_last "/"%char path) by (subst m; reflexivity).
  split; [exact Hn|]. rewrite Hn.
  rewrite load_any_storage, <- (load_any_storage st).
  apply load_basename, H.
Qed.

Lemma load_by_name_witness :
  ∃ m, load LocalStorage 0 "/music/another_song.mp3" = Return m
       ∧ name m = "another_song.mp3"
       ∧ load (CloudStorage "Dropbox" ∅) 0 (name m) = Return m.
Proof.
  eexists. split; [reflexivity|].
  edestruct (load_by_name LocalStorage (CloudStorage "Dropbox" ∅) 0
               "/music/another_song.mp3") as [Hn Hl]; [reflexivity|].
  split; [exact Hn | exact Hl].
Defined.

(** X23. A loaded file has exactly the four keys of its class in its
    metadata, all [None], and no owner; so [convert] returns on it for
    every target format, with a file of the same class, size and
    metadata. *)
Theorem loaded_file_converts (st : Storage) (now now' : Z)
    (path fmt : string) (m : MediaFile) :
  load st now path = Return m →
  plain m ∧ owner m = VNone
  ∧ (∀ k, k ∈ own_keys (class_of m) → metadata m !! k = Some VNone)
  ∧ ∃ r, convert now' fmt m = (m, Return r)
         ∧ class_of r = class_of m ∧ size r = size m
         ∧ metadata r = metadata m.
Proof.
  intros H. destruct (load_inv _ _ _ _ H) as (c & sz & ->).
  assert (Hp : plain (mkMediaFile c (split_last "/"%char path) sz
                        (VDatetime now) VNone (own_fields c ∅)))
    by apply own_fields_empty_plain.
  split; [exact Hp|]. split; [reflexivity|]. split.
  - intros k Hk. cbn [metadata class_of] in *.
    rewrite lookup_own_fields, bool_decide_eq_true_2 by exact Hk.
    unfold keyword. rewrite lookup_empty. reflexivity.
  - rewrite (convert_plain _ _ _ Hp). eexists. repeat split.
Qed.

Lemma loaded_file_converts_witness :
  ∃ m, load LocalStorage 0 "/music/another_song.mp3" = Return m
       ∧ ∃ r, convert 1 "wav" m = (m, Return r)
              ∧ class_of r = class_of m ∧ size r = size m
              ∧ metadata r = metadata m.
Proof.
  eexists. split; [reflexivity|].
  edestruct (loaded_file_converts LocalStorage 0 1
               "/music/another_song.mp3" "wav") as (_ & _ & _ & Hr);
    [reflexivity|].
  exact Hr.
Defined.

(** X24. [load] never uses the storage it is called on: all four classes
    of storage return the same for the same path.  And the factory called
    without extra fields does what [load] does, size apart: it raises the
    same error where [load] raises, and where [load] returns a file it
    returns that file with the size it was given. *)
Theorem load_and_factory_agree (st st' : Storage) (now sz : Z)
    (path : string) :
  load st now path = load st' now path
  ∧ create_from_path now path sz ∅
    = match load st now path with
      | Return m => Return (with_size sz m)
      | Raise e => Raise e
      end.
Proof.
  split; [rewrite !load_any_storage; reflexivity|].
  rewrite load_any_storage, LocalStorage_load_cases.
  rewrite create_from_path_cases by apply lookup_empty.
  destruct (endswith_any path [".mp3"; ".wav"; ".flac"]);
    [|destruct (endswith_any path [".mp4"; ".avi"; ".mov"]);
      [|destruct (endswith_any path [".jpg"; ".png"; ".gif"]);
        [|reflexivity]]];
    rewrite !subclass_init_accepts by reflexivity; reflexivity.
Qed.

(** X25. Whatever [list_files] returns can be loaded: for every storage
    and directory, the three listed names load, on every storage, as an
    Audio, a Video and a Photo file, in that order. *)
Theorem listed_files_load (st st' : Storage) (directory : string) (now : Z) :
  (λ n, returned_class (load st' now n)) <$> list_files st directory
  = [Some AudioFile; Some VideoFile; Some PhotoFile].
Proof.
  destruct st; cbn [list_files fmap list_fmap];
    rewrite !load_any_storage; reflexivity.
Qed.

Lemma Plane_after_remove_all_cargo_witness :
  (Plane_load_cargo 100
     (after (Plane_remove_all_cargo
               (after (Plane_load_cargo 60 (Plane_init 0 0 0 100)))))).2
  = Return tt.
Proof.
  apply (proj2 (Plane_after_remove_all_cargo
                  (after (Plane_load_cargo 60 (Plane_init 0 0 0 100))) 100)).
  simpl; lia.
Defined.

(** ** What the exceptions say *)

(** X26. The exceptions of the vehicle exercise carry a [message] made of
    the prefix of their class and the text of the raising method: a
    [start] that raises says there is no fuel, a [move] that raises
    reports the fuel needed and the fuel there is, a [load_cargo] that
    raises reports the amount, the current cargo and the capacity. *)
Theorem vehicle_error_messages (v : Vehicle) (p : Plane) (d a : Z) :
  (raised (Vehicle_start v).2 = true →
   (Vehicle_start v).2
   = Raise (LowFuelError_obj "Low Fuel: Cannot start vehicle with no fuel"))
  ∧ (raised (Vehicle_move d v).2 = true →
     ∃ e, (Vehicle_move d v).2 = Raise e
          ∧ is_NotEnoughFuel e = true
          ∧ message_of e
            = Some ("Not Enough Fuel: Need " +:+
                    pretty (d * fuel_consumption v) +:+
                    " fuel, but only have " +:+ pretty (fuel v)))
  ∧ (raised (Plane_load_cargo a p).2 = true →
     ∃ e, (Plane_load_cargo a p).2 = Raise e
          ∧ is_CargoOverload e = true
          ∧ message_of e
            = Some ("Cargo Over load: Cannot load " +:+ pretty a +:+
                    " cargo. Current: " +:+ pretty (cargo p) +:+
                    ", Max: " +:+ pretty (max_cargo p))).
Proof.
  split; [|split].
  - rewrite Vehicle_start_cases. destruct (started v); [discriminate|].
    destruct (bool_decide (fuel v > 0)); [discriminate | reflexivity].
  - destruct (Z_le_gt_dec (d * fuel_consumption v) (fuel v)) as [H|H].
    + rewrite Vehicle_move_enough by exact H. discriminate.
    + rewrite Vehicle_move_short by exact H. intros _.
      eexists. repeat split.
  - destruct (Z_le_gt_dec (cargo p + a) (max_cargo p)) as [H|H].
    + rewrite Plane_load_cargo_fits by exact H. discriminate.
    + rewrite Plane_load_cargo_over by exact H. intros _.
      eexists. repeat split.
Qed.

Lemma vehicle_error_messages_witness :
  (Vehicle_start (Vehicle_init 0 0 1)).2
  = Raise (LowFuelError_obj "Low Fuel: Cannot start vehicle with no fuel")
  ∧ (∃ e, (Vehicle_move 2 (mkVehicle 0 false 2 2)).2 = Raise e
          ∧ message_of e
            = Some "Not Enough Fuel: Need 4 fuel, but only have 2")
  ∧ ∃ e, (Plane_load_cargo 50 (mkPlane (Vehicle_init 0 0 0) 60 100)).2
         = Raise e
         ∧ message_of e
           = Some "Cargo Over load: Cannot load 50 cargo. Current: 60, Max: 100".
Proof.
  split; [|split].
  - apply (proj1 (vehicle_error_messages (Vehicle_init 0 0 1)
                    (Plane_init 0 0 0 0) 0 0)).
    reflexivity.
  - destruct (proj1 (proj2 (vehicle_error_messages (mkVehicle 0 false 2 2)
                              (Plane_init 0 0 0 0) 2 0)))
      as (e & He & _ & Hm); [reflexivity|].
    exists e. split; [exact He | exact Hm].
  - destruct (proj2 (proj2 (vehicle_error_messages (Vehicle_init 0 0 0)
                      (mkPlane (Vehicle_init 0 0 0) 60 100) 0 50)))
      as (e & He & _ & Hm); [reflexivity|].
    exists e. split; [exact He | exact Hm].
Defined.
